(** * Posts API of the developer social network: routes/api/posts.js and
      middleware/checkObjectId.js

    The ten routes of the posts router and the [checkObjectId] middleware are
    embedded as functions over an explicit database state.  Mongoose documents
    are records, the two collections are finite maps keyed by [_id], the arrays
    of likes and comments are lists, and an [async] handler is a computation in
    a state-and-exception monad whose state is the database together with the
    log of the calls made to it. *)

From Stdlib Require Import ZArith Ascii String.
From stdpp Require Import base decidable option list strings gmap sorting.

Local Open Scope string_scope.
Local Open Scope list_scope.

(** ** Object ids

    A route parameter and [req.user.id] are JavaScript strings, while the
    fields [_id] and [user] of a stored document are [ObjectId]s.  An
    [ObjectId] is kept as the string that [toString()] (and the [id] getter of
    a document) gives for it: twenty-four lower-case hexadecimal digits.  The
    driver's cast from a string accepts twenty-four hexadecimal digits of
    either case; the twelve-byte string form that drivers before bson 6
    accepted as well is left out. *)

Definition isLowerHexDigit (c : ascii) : bool :=
  let n := nat_of_ascii c in
  ((48 <=? n)%nat && (n <=? 57)%nat) || ((97 <=? n)%nat && (n <=? 102)%nat).

Definition isUpperHexDigit (c : ascii) : bool :=
  let n := nat_of_ascii c in (65 <=? n)%nat && (n <=? 70)%nat.

Definition toLowerHexDigit (c : ascii) : ascii :=
  if isUpperHexDigit c then ascii_of_nat (nat_of_ascii c + 32) else c.

Fixpoint allChars (f : ascii -> bool) (s : string) : bool :=
  match s with
  | EmptyString => true
  | String c s' => f c && allChars f s'
  end.

Fixpoint mapChars (f : ascii -> ascii) (s : string) : string :=
  match s with
  | EmptyString => EmptyString
  | String c s' => String (f c) (mapChars f s')
  end.

Definition isCanonicalHex (s : string) : bool :=
  (String.length s =? 24)%nat && allChars isLowerHexDigit s.

Definition ObjectId : Type := { s : string | Is_true (isCanonicalHex s) }.

#[global] Instance ObjectId_eq_dec : EqDecision ObjectId := _.
#[global] Instance ObjectId_countable : Countable ObjectId := _.

(** [oid.toString()], also what the [id] getter of a document returns. *)
Definition toString (o : ObjectId) : string := proj1_sig o.

(** The cast mongoose applies to a string where the schema wants an ObjectId. *)
Definition castObjectId (s : string) : option ObjectId :=
  let s' := mapChars toLowerHexDigit s in
  match decide (Is_true (isCanonicalHex s')) with
  | left H => Some (exist _ s' H)
  | right _ => None
  end.

(** [mongoose.Types.ObjectId.isValid(s)] for a string [s]. *)
Definition isValid (s : string) : bool :=
  match castObjectId s with Some _ => true | None => false end.

(** ** Documents *)

(** Modelled from the spec: models/Post.js is not among the sources.  A like
    record is [{user}]. *)
Record Like := mkLike { like_user : ObjectId }.

(** Modelled from the spec: models/Post.js is not among the sources.  A
    comment record is [{id, user, text, name, avatar, date}]; the date is in
    milliseconds since the epoch. *)
Record Comment := mkComment {
  comment__id : ObjectId;
  comment_user : ObjectId;
  comment_text : string;
  comment_name : string;
  comment_avatar : string;
  comment_date : Z
}.

(** Modelled from the spec: models/Post.js is not among the sources.  A post
    has an author reference, a text, the likes, the comments and a creation
    timestamp, and the name and the avatar that the router copies from the
    author; its [_id] is the key under which it is stored. *)
Record Post := mkPost {
  post_user : ObjectId;
  post_text : string;
  post_name : string;
  post_avatar : string;
  post_likes : list Like;
  post_comments : list Comment;
  post_date : Z
}.

(** Modelled from the spec: models/User.js is not among the sources.  Of a
    user the router reads the name and the avatar; the password hash is
    projected away by [select('-password')]. *)
Record User := mkUser { user_name : string; user_avatar : string }.

(** [comment.id]: the string getter of a sub-document's [_id]. *)
Definition comment_id (c : Comment) : string := toString (comment__id c).

(** A post document held by a handler: its [_id] and its fields. *)
Definition PostDoc : Type := ObjectId * Post.

(** Assignments to the fields of a document held by a handler. *)
Definition set_post_text (text : string) (p : Post) : Post :=
  mkPost (post_user p) text (post_name p) (post_avatar p)
         (post_likes p) (post_comments p) (post_date p).

Definition set_post_likes (likes : list Like) (p : Post) : Post :=
  mkPost (post_user p) (post_text p) (post_name p) (post_avatar p)
         likes (post_comments p) (post_date p).

Definition set_post_comments (comments : list Comment) (p : Post) : Post :=
  mkPost (post_user p) (post_text p) (post_name p) (post_avatar p)
         (post_likes p) comments (post_date p).

Definition set_comment_text (text : string) (c : Comment) : Comment :=
  mkComment (comment__id c) (comment_user c) text (comment_name c)
            (comment_avatar c) (comment_date c).

(** ** The database and the calls made to it *)

Record DB := mkDB {
  Posts : gmap ObjectId Post;
  Users : gmap ObjectId User
}.

Inductive DbCall :=
| Call_User_findById (id : string)
| Call_Post_find
| Call_Post_findById (id : string)
| Call_Post_findByIdAndUpdate (id : string) (text : option string)
| Call_Post_save (id : ObjectId)
| Call_Post_deleteOne (id : ObjectId).

Record World := mkWorld { db : DB; calls : list DbCall }.

Definition logCall (c : DbCall) (w : World) : World :=
  mkWorld (db w) (calls w ++ [c]).

Definition setPosts (f : gmap ObjectId Post -> gmap ObjectId Post) (w : World) : World :=
  mkWorld (mkDB (f (Posts (db w))) (Users (db w))) (calls w).

(** ** Asynchronous handlers: state and exceptions *)

Inductive Exn := TypeError | ReferenceError | CastError | SchemaValidationError.

Definition Async (A : Type) : Type := World -> (Exn + A) * World.

Definition ret {A} (a : A) : Async A := fun w => (inr a, w).

Definition throw {A} (e : Exn) : Async A := fun w => (inl e, w).

Definition bind {A B} (m : Async A) (k : A -> Async B) : Async B :=
  fun w => match m w with
           | (inr a, w') => k a w'
           | (inl e, w') => (inl e, w')
           end.

(** [try { m } catch (e) { h e }] *)
Definition try_catch {A} (m : Async A) (h : Exn -> Async A) : Async A :=
  fun w => match m w with
           | (inr a, w') => (inr a, w')
           | (inl e, w') => h e w'
           end.

Notation "x <- m ; k" := (bind m (fun x => k))
  (at level 20, m at level 100, k at level 200, only parsing).

(** Reading a property of [o]: a [TypeError] when [o] is [null]. *)
Definition deref {A} (o : option A) : Async A :=
  match o with
  | Some a => ret a
  | None => throw TypeError
  end.

(** *** Model calls

    [findById] and [findByIdAndUpdate] cast the string they are given to an
    object id first and are rejected with a [CastError] when it has none. *)

Definition Post_findById (id : string) : Async (option PostDoc) :=
  fun w =>
    let w' := logCall (Call_Post_findById id) w in
    match castObjectId id with
    | None => (inl CastError, w')
    | Some o => (inr (pair o <$> Posts (db w) !! o), w')
    end.

Definition User_findById (id : string) : Async (option User) :=
  fun w =>
    let w' := logCall (Call_User_findById id) w in
    match castObjectId id with
    | None => (inl CastError, w')
    | Some o => (inr (Users (db w) !! o), w')
    end.

(** [doc.save()] of a document that passes the validation of the schema: it
    is written under its [_id]. *)
Definition save (doc : PostDoc) : Async unit :=
  fun w => (inr tt, setPosts (insert (fst doc) (snd doc)) (logCall (Call_Post_save (fst doc)) w)).

(** [doc.save()] where the handler has given [req.body.text] to the document
    or to one of its comments as its text.
    Modelled from the spec: models/Post.js is not among the sources.  A post
    and a comment have a text, so a document in which that text is
    [undefined] does not pass the validation of the schema: [save()] is
    rejected before anything is sent to the database. *)
Definition saveWithText (text : option string) (doc : PostDoc) : Async unit :=
  match text with
  | Some _ => save doc
  | None => throw SchemaValidationError
  end.

Definition deleteOne (doc : PostDoc) : Async unit :=
  fun w => (inr tt, setPosts (delete (fst doc)) (logCall (Call_Post_deleteOne (fst doc)) w)).

(** [Post.findByIdAndUpdate(id, {$set: {text}}, {new: true})].  A key of the
    update whose value is [undefined] is taken out of it, as Mongoose does
    from its version 6 on, and the update that is left empty only reads the
    document. *)
Definition Post_findByIdAndUpdate (id : string) (text : option string) :
    Async (option PostDoc) :=
  fun w =>
    let w' := logCall (Call_Post_findByIdAndUpdate id text) w in
    match castObjectId id with
    | None => (inl CastError, w')
    | Some o =>
        match Posts (db w) !! o with
        | None => (inr None, w')
        | Some p =>
            match text with
            | Some text =>
                let p' := set_post_text text p in
                (inr (Some (o, p')), setPosts (insert o p') w')
            | None => (inr (Some (o, p)), w')
            end
        end
    end.

(** [{date: -1}]: a document comes before every document that is not newer. *)
Definition newestFirst : relation PostDoc :=
  fun a b => (post_date (snd b) <= post_date (snd a))%Z.

#[global] Instance newestFirst_dec : RelDecision newestFirst.
Proof. intros a b. unfold newestFirst. apply _. Defined.

(** [Post.find().sort({date: -1})] *)
Definition Post_find_sort : Async (list PostDoc) :=
  fun w =>
    (inr (merge_sort newestFirst (map_to_list (Posts (db w)))), logCall Call_Post_find w).

(** ** Requests and responses *)

(** The names of the route parameters: [req.params.post_id] and
    [req.params.comment_id]. *)
Module params.
Inductive Param := post_id | comment_id.
End params.

(** A request that the [auth] middleware let through.  [req.user.id] is the
    string of the user id that was put in the token when it was signed, so
    it is kept as that id; [req.params] are the strings of the URL.  The
    handlers read [req.body.text]; the validator looks for a field [text] in
    the cookies, the headers and the query string as well.  Each of them may
    be missing; where one is given it is a string. *)
Record Request := mkRequestIn {
  req_user : ObjectId;
  req_params : params.Param -> string;
  req_body_text : option string;
  req_cookies_text : option string;
  req_headers_text : option string;
  req_query_text : option string
}.

(** A request with no field [text] outside its body. *)
Definition mkRequest (user : ObjectId) (prms : params.Param -> string)
    (text : option string) : Request :=
  mkRequestIn user prms text None None None.

(** [req.user.id] *)
Definition req_user_id (req : Request) : string := toString (req_user req).

(** What a handler takes from its surroundings when it creates a document
    or a sub-document: the [_id] that is generated for it and [Date.now()],
    the default of its date. *)
Record Env := mkEnv { env_newId : ObjectId; env_now : Z }.

Record ValidationError := mkValidationError { ve_msg : string; ve_path : string }.

Inductive Body :=
| BMsg (msg : string)
| BErrors (errors : list ValidationError)
| BText (text : string)
| BPost (doc : PostDoc)
| BPosts (docs : list PostDoc)
| BLikes (likes : list Like)
| BComments (comments : list Comment).

Record Response := mkResponse { status : nat; body : Body }.

(** [res.status(n).json(b)], [res.json(b)] and [res.status(n).send(s)] *)
Definition status_json (n : nat) (b : Body) : Async Response := ret (mkResponse n b).
Definition json (b : Body) : Async Response := ret (mkResponse 200 b).
Definition status_send (n : nat) (s : string) : Async Response := ret (mkResponse n (BText s)).

(** The error of [check('text', 'Text is required')]. *)
Definition textRequired : list ValidationError :=
  [mkValidationError "Text is required" "text"].

(** The places in which [check('text', ...)] looks for the field: [req.body],
    [req.cookies], [req.headers], [req.params] and [req.query], in this
    order.  No route has a parameter [text], so [req.params] never gives
    it. *)
Definition textInstances (req : Request) : list (option string) :=
  [req_body_text req; req_cookies_text req; req_headers_text req; None;
   req_query_text req].

(** [check('text', 'Text is required').not().isEmpty()] followed by
    [validationResult(req).array()].  The validator runs on every place that
    gives the field, and each of them must pass: the empty string is the
    value refused.  When no place gives the field it runs on the first place
    alone, which fails. *)
Definition validationResult (req : Request) : list ValidationError :=
  let withValue := omap id (textInstances req) in
  match withValue with
  | [] => textRequired
  | _ => withValue ≫= (fun value => if decide (value = "") then textRequired else [])
  end.

Definition isEmpty {A} (l : list A) : bool :=
  match l with [] => true | _ => false end.

(** [req.body.text] as the text of a document.  A document whose text is
    [undefined] is never stored (see [saveWithText]), and the empty string
    stands for that text until then. *)
Definition req_text (req : Request) : string := default "" (req_body_text req).

(** [catch (err) { console.error(err.message); res.status(500).send('Server Error'); }] *)
Definition catch_err (err : Exn) : Async Response := status_send 500 "Server Error".

(** [catch (error) { console.error(err.message); ... }]: the block names its
    exception [error] and then reads [err], which is bound nowhere, so the
    block itself throws and the handler's promise is rejected with nothing
    sent. *)
Definition catch_error (error : Exn) : Async Response := throw ReferenceError.

(** ** middleware/checkObjectId.js *)

Definition Middleware : Type := Request -> option Response.

Definition checkObjectId (idToCheck : params.Param) : Middleware :=
  fun req =>
    if negb (isValid (req_params req idToCheck))
    then Some (mkResponse 400 (BMsg "Invalid ID"))
    else None.

(** [auth] has already run: see [Request]. *)
Definition auth : Middleware := fun _ => None.

(** The validators of express-validator only record their findings. *)
Definition check_text : Middleware := fun _ => None.

(** A handler ends with the response it has sent, [inr], or with an
    exception that escaped it, [inl]: then its promise is rejected and the
    handler has sent nothing. *)
Definition Handler : Type := Env -> Request -> Async Response.

(** A route: the middleware in the order of the source, then the handler; a
    middleware that answers ends the request. *)

Fixpoint route (ms : list Middleware) (h : Handler) : Handler :=
  fun env req =>
    match ms with
    | [] => h env req
    | m :: ms' =>
        match m req with
        | Some r => ret r
        | None => route ms' h env req
        end
    end.

(** ** Array operations of JavaScript used by the router *)

(** [l.indexOf(x)] *)
Definition indexOf (x : string) (l : list string) : Z :=
  match list_find (fun y => y = x) l with
  | Some (i, _) => Z.of_nat i
  | None => (-1)%Z
  end.

(** [l.splice(start, deleteCount)], as the array it leaves behind. *)
Definition splice {A} (start : Z) (deleteCount : nat) (l : list A) : list A :=
  let len := Z.of_nat (length l) in
  let s := Z.to_nat (if (start <? 0)%Z then Z.max (len + start) 0 else Z.min start len) in
  take s l ++ drop (s + deleteCount) l.

(** [post.likes.some(like => like.user.toString() === req.user.id)] *)
Definition likedBy (req : Request) (p : Post) : bool :=
  bool_decide (Exists (fun like => toString (like_user like) = req_user_id req) (post_likes p)).

(** [post.comments.find(comment => comment.id === req.params.comment_id)],
    with the position of the comment found: the handler holds the element of
    the array itself, not a copy. *)
Definition findComment (req : Request) (p : Post) : option (nat * Comment) :=
  list_find (fun comment => comment_id comment = req_params req params.comment_id) (post_comments p).

(** ** routes/api/posts.js *)

(** POST api/posts: create a post. *)
Definition post_root_handler : Handler := fun env req =>
  let errors := validationResult req in
  if negb (isEmpty errors) then status_json 400 (BErrors errors) else
  try_catch
    (user <- User_findById (req_user_id req) ;
     u <- deref user ;
     let newPost : PostDoc :=
       (env_newId env,
        mkPost (req_user req) (req_text req) (user_name u) (user_avatar u)
               [] [] (env_now env)) in
     _ <- saveWithText (req_body_text req) newPost ;
     json (BPost newPost))
    catch_error.

Definition post_root : Handler := route [auth; check_text] post_root_handler.

(** GET api/posts: all posts, the most recent first. *)
Definition get_root_handler : Handler := fun env req =>
  try_catch
    (posts <- Post_find_sort ;
     json (BPosts posts))
    catch_err.

Definition get_root : Handler := route [auth] get_root_handler.

(** GET api/posts/:post_id *)
Definition get_post_handler : Handler := fun env req =>
  try_catch
    (post <- Post_findById (req_params req params.post_id) ;
     match post with
     | None => status_json 404 (BMsg "Post not found")
     | Some doc => json (BPost doc)
     end)
    catch_err.

Definition get_post : Handler :=
  route [auth; checkObjectId params.post_id] get_post_handler.

(** DELETE api/posts/:post_id *)
Definition delete_post_handler : Handler := fun env req =>
  try_catch
    (post <- Post_findById (req_params req params.post_id) ;
     match post with
     | None => status_json 404 (BMsg "Post not found")
     | Some doc =>
         if negb (bool_decide (toString (post_user (snd doc)) = req_user_id req))
         then status_json 401 (BMsg "User not authorized")
         else
           _ <- deleteOne doc ;
           json (BMsg "Post Removed")
     end)
    catch_err.

Definition delete_post : Handler :=
  route [auth; checkObjectId params.post_id] delete_post_handler.

(** PUT api/posts/:post_id: update the text of a post. *)
Definition put_post_handler : Handler := fun env req =>
  try_catch
    (let errors := validationResult req in
     if negb (isEmpty errors) then status_json 400 (BErrors errors) else
     updatedPost <- Post_findByIdAndUpdate (req_params req params.post_id) (req_body_text req) ;
     match updatedPost with
     | None => status_json 404 (BMsg "Post not found")
     | Some doc => json (BPost doc)
     end)
    catch_err.

Definition put_post : Handler :=
  route [auth; checkObjectId params.post_id; check_text] put_post_handler.

(** PUT api/posts/like/:post_id *)
Definition put_like_handler : Handler := fun env req =>
  try_catch
    (post <- Post_findById (req_params req params.post_id) ;
     doc <- deref post ;
     if likedBy req (snd doc)
     then status_json 400 (BMsg "Post already liked")
     else
       let likes := mkLike (req_user req) :: post_likes (snd doc) in
       let doc' : PostDoc := (fst doc, set_post_likes likes (snd doc)) in
       _ <- save doc' ;
       json (BLikes (post_likes (snd doc'))))
    catch_err.

Definition put_like : Handler :=
  route [auth; checkObjectId params.post_id] put_like_handler.

(** PUT api/posts/unlike/:post_id *)
Definition put_unlike_handler : Handler := fun env req =>
  try_catch
    (post <- Post_findById (req_params req params.post_id) ;
     doc <- deref post ;
     if negb (likedBy req (snd doc))
     then status_json 400 (BMsg "Post has not yet been liked")
     else
       let removeIndex :=
         indexOf (req_user_id req)
                 ((fun like => toString (like_user like)) <$> post_likes (snd doc)) in
       let likes := splice removeIndex 1 (post_likes (snd doc)) in
       let doc' : PostDoc := (fst doc, set_post_likes likes (snd doc)) in
       _ <- save doc' ;
       json (BLikes (post_likes (snd doc'))))
    catch_err.

Definition put_unlike : Handler :=
  route [auth; checkObjectId params.post_id] put_unlike_handler.

(** POST api/posts/comment/:post_id *)
Definition post_comment_handler : Handler := fun env req =>
  let errors := validationResult req in
  if negb (isEmpty errors) then status_json 400 (BErrors errors) else
  try_catch
    (user <- User_findById (req_user_id req) ;
     post <- Post_findById (req_params req params.post_id) ;
     u <- deref user ;
     let newComment :=
       mkComment (env_newId env) (req_user req) (req_text req)
                 (user_name u) (user_avatar u) (env_now env) in
     doc <- deref post ;
     let doc' : PostDoc :=
       (fst doc, set_post_comments (newComment :: post_comments (snd doc)) (snd doc)) in
     _ <- saveWithText (req_body_text req) doc' ;
     json (BComments (post_comments (snd doc'))))
    catch_error.

Definition post_comment : Handler :=
  route [auth; check_text] post_comment_handler.

(** DELETE api/posts/comment/:post_id/:comment_id *)
Definition delete_comment_handler : Handler := fun env req =>
  try_catch
    (post <- Post_findById (req_params req params.post_id) ;
     doc <- deref post ;
     let comment := findComment req (snd doc) in
     match post with
     | None => status_json 404 (BMsg "Post does not exist")
     | Some _ =>
         match comment with
         | None => status_json 404 (BMsg "Comment does not exist")
         | Some (_, c) =>
             if negb (bool_decide (toString (comment_user c) = req_user_id req))
             then status_json 401 (BMsg "User not authorized")
             else
               let comments :=
                 filter (fun c' => comment_id c' <> req_params req params.comment_id)
                        (post_comments (snd doc)) in
               let doc' : PostDoc := (fst doc, set_post_comments comments (snd doc)) in
               _ <- save doc' ;
               json (BComments (post_comments (snd doc')))
         end
     end)
    catch_err.

Definition delete_comment : Handler :=
  route [auth; checkObjectId params.post_id; checkObjectId params.comment_id] delete_comment_handler.

(** PUT api/posts/comment/:post_id/:comment_id *)
Definition put_comment_handler : Handler := fun env req =>
  let errors := validationResult req in
  if negb (isEmpty errors) then status_json 400 (BErrors errors) else
  try_catch
    (post <- Post_findById (req_params req params.post_id) ;
     doc <- deref post ;
     let comment := findComment req (snd doc) in
     match post with
     | None => status_json 404 (BMsg "Post does not exist")
     | Some _ =>
         match comment with
         | None => status_json 404 (BMsg "Comment does not exist")
         | Some (i, c) =>
             if negb (bool_decide (toString (comment_user c) = req_user_id req))
             then status_json 401 (BMsg "User not authorized")
             else
               let comments :=
                 <[i := set_comment_text (req_text req) c]> (post_comments (snd doc)) in
               let doc' : PostDoc := (fst doc, set_post_comments comments (snd doc)) in
               _ <- saveWithText (req_body_text req) doc' ;
               json (BComments (post_comments (snd doc')))
         end
     end)
    catch_err.

Definition put_comment : Handler :=
  route [auth; checkObjectId params.post_id; checkObjectId params.comment_id; check_text] put_comment_handler.

(** The routes of the router. *)
Inductive Route :=
| POST_root | GET_root | GET_post | DELETE_post | PUT_post
| PUT_like | PUT_unlike | POST_comment | DELETE_comment | PUT_comment.

Definition router (r : Route) : Handler :=
  match r with
  | POST_root => post_root
  | GET_root => get_root
  | GET_post => get_post
  | DELETE_post => delete_post
  | PUT_post => put_post
  | PUT_like => put_like
  | PUT_unlike => put_unlike
  | POST_comment => post_comment
  | DELETE_comment => delete_comment
  | PUT_comment => put_comment
  end.

(** ** The invariant of the likes arrays

    A user may like a post at most once: in every stored post the users of
    the like records are pairwise distinct. *)
Definition likesUnique (d : DB) : Prop :=
  forall o p, Posts d !! o = Some p -> NoDup (like_user <$> post_likes p).

(** ** The invariant of the comments arrays

    The sub-documents of a post have pairwise distinct [_id]s. *)
Definition commentsUnique (d : DB) : Prop :=
  forall o p, Posts d !! o = Some p -> NoDup (comment__id <$> post_comments p).

(** ** A small database and a few requests, used to run the routes *)

Module Sample.

Definition alice : ObjectId := exist _ "aaaaaaaaaaaaaaaaaaaaaaaa" I.
Definition bob : ObjectId := exist _ "bbbbbbbbbbbbbbbbbbbbbbbb" I.
Definition post1_id : ObjectId := exist _ "111111111111111111111111" I.
Definition post2_id : ObjectId := exist _ "222222222222222222222222" I.
Definition comment1_id : ObjectId := exist _ "c1c1c1c1c1c1c1c1c1c1c1c1" I.
Definition comment2_id : ObjectId := exist _ "c2c2c2c2c2c2c2c2c2c2c2c2" I.
Definition fresh_id : ObjectId := exist _ "ffffffffffffffffffffffff" I.

(** A well-formed id that names no stored document. *)
Definition missing_oid : ObjectId := exist _ "999999999999999999999999" I.
Definition missing_id : string := toString missing_oid.
(** A string that is not an object id. *)
Definition malformed_id : string := "123".

Definition comment1 : Comment :=
  mkComment comment1_id alice "first" "Alice" "alice.png" 1100.
Definition comment2 : Comment :=
  mkComment comment2_id bob "second" "Bob" "bob.png" 1200.

(** Alice's post, liked by Alice, with a comment of Alice and one of Bob. *)
Definition post1 : Post :=
  mkPost alice "hello" "Alice" "alice.png" [mkLike alice] [comment2; comment1] 1000.
(** Bob's later post. *)
Definition post2 : Post :=
  mkPost bob "world" "Bob" "bob.png" [] [] 2000.

Definition db0 : DB :=
  mkDB (<[post1_id := post1]> (<[post2_id := post2]> ∅))
       (<[alice := mkUser "Alice" "alice.png"]> (<[bob := mkUser "Bob" "bob.png"]> ∅)).

Definition w0 : World := mkWorld db0 [].

Definition env0 : Env := mkEnv fresh_id 5000.

Definition mkParams (pid cid : string) : params.Param -> string :=
  fun k => match k with params.post_id => pid | params.comment_id => cid end.

(** Bob, on Alice's post and on Alice's comment. *)
Definition bob_on_post1 (text : option string) : Request :=
  mkRequest bob (mkParams (toString post1_id) (toString comment1_id)) text.

(** Alice, on her own post and on her own comment. *)
Definition alice_on_post1 (text : option string) : Request :=
  mkRequest alice (mkParams (toString post1_id) (toString comment1_id)) text.

(** Bob, on a post that does not exist. *)
Definition bob_on_missing (text : option string) : Request :=
  mkRequest bob (mkParams missing_id (toString comment1_id)) text.

(** Bob, on Alice's post, with no text in the body and a text in the query
    string: [PUT /posts/1111...?text=hi] with the body [{}]. *)
Definition bob_text_in_query : Request :=
  mkRequestIn bob (mkParams (toString post1_id) (toString comment1_id))
              None None None (Some "hi").

(** Bob, with a post id that is not an object id. *)
Definition bob_on_malformed (text : option string) : Request :=
  mkRequest bob (mkParams malformed_id (toString comment1_id)) text.

End Sample.

Import Sample.

(** * Properties *)

(** ** Object ids *)

Lemma ObjectId_eq (a b : ObjectId) : toString a = toString b -> a = b.
Proof. intros H. by apply (sig_eq_pi _ a b). Qed.

Lemma toLowerHexDigit_lower c : isLowerHexDigit c = true -> toLowerHexDigit c = c.
Proof.
  unfold isLowerHexDigit, toLowerHexDigit, isUpperHexDigit.
  intros H.
  destruct ((65 <=? nat_of_ascii c)%nat && (nat_of_ascii c <=? 70)%nat) eqn:E; [|done].
  apply andb_true_iff in E as [E1 E2].
  apply Nat.leb_le in E1, E2.
  apply orb_true_iff in H as [H|H]; apply andb_true_iff in H as [H1 H2];
    apply Nat.leb_le in H1, H2; lia.
Qed.

Lemma mapChars_lower s :
  allChars isLowerHexDigit s = true -> mapChars toLowerHexDigit s = s.
Proof.
  induction s as [|c s IH]; simpl; [done|].
  intros [Hc Hs]%andb_true_iff. by rewrite toLowerHexDigit_lower, IH.
Qed.

(** The string of an object id casts back to that object id. *)
Lemma castObjectId_toString (o : ObjectId) : castObjectId (toString o) = Some o.
Proof.
  destruct o as [s Hs]. unfold castObjectId, toString. simpl.
  assert (Hl : mapChars toLowerHexDigit s = s).
  { apply mapChars_lower. apply Is_true_true in Hs.
    unfold isCanonicalHex in Hs. by apply andb_true_iff in Hs as [_ ?]. }
  destruct (decide (Is_true (isCanonicalHex (mapChars toLowerHexDigit s)))) as [H|H].
  - f_equal. by apply ObjectId_eq.
  - by rewrite Hl in H.
Qed.

Lemma isValid_toString (o : ObjectId) : isValid (toString o) = true.
Proof. unfold isValid. by rewrite castObjectId_toString. Qed.

Lemma isValid_cast s o : castObjectId s = Some o -> isValid s = true.
Proof. unfold isValid. by intros ->. Qed.

Lemma toString_inj a b : toString a = toString b <-> a = b.
Proof. split; [apply ObjectId_eq | by intros ->]. Qed.

(** ** Middleware *)

Lemma checkObjectId_valid k req :
  isValid (req_params req k) = true -> checkObjectId k req = None.
Proof. unfold checkObjectId. by intros ->. Qed.

Lemma checkObjectId_invalid k req :
  isValid (req_params req k) = false ->
  checkObjectId k req = Some (mkResponse 400 (BMsg "Invalid ID")).
Proof. unfold checkObjectId. by intros ->. Qed.

(** ** GET api/posts *)

#[local] Instance newestFirst_trans : Transitive newestFirst.
Proof. unfold newestFirst. intros a b c ? ?. lia. Qed.

#[local] Instance newestFirst_total : Total newestFirst.
Proof. unfold newestFirst. intros a b. lia. Qed.

(** C3: GET /posts answers 200 with every post of the store, each one once,
    ordered by descending creation date; the store is left as it was. *)
Theorem get_root_all_posts_newest_first (env : Env) (req : Request) (w : World) :
  exists posts : list PostDoc,
    get_root env req w = (inr (mkResponse 200 (BPosts posts)), logCall Call_Post_find w)
    /\ db (logCall Call_Post_find w) = db w
    /\ posts ≡ₚ map_to_list (Posts (db w))
    /\ (forall o p, (o, p) ∈ posts <-> Posts (db w) !! o = Some p)
    /\ StronglySorted newestFirst posts.
Proof.
  exists (merge_sort newestFirst (map_to_list (Posts (db w)))).
  split; [reflexivity|]. split; [reflexivity|].
  split; [apply merge_sort_Permutation|].
  split; [|apply StronglySorted_merge_sort; apply _].
  intros o p. rewrite merge_sort_Permutation. apply elem_of_map_to_list.
Qed.

(** ** Running a handler *)

#[local] Arguments castObjectId : simpl never.
#[local] Arguments isValid : simpl never.
#[local] Arguments validationResult : simpl never.
#[local] Arguments findComment : simpl never.
#[local] Arguments likedBy : simpl never.
#[local] Arguments indexOf : simpl never.
#[local] Arguments splice : simpl never.
#[local] Arguments toString : simpl never.

Ltac run_handler :=
  unfold try_catch, bind, deref, Post_findById, User_findById,
    Post_findByIdAndUpdate, Post_find_sort, saveWithText, save, deleteOne,
    catch_err, catch_error;
  unfold status_json, json, status_send, ret, throw;
  simpl.

Lemma likedBy_true req p :
  likedBy req p = true <-> req_user req ∈ like_user <$> post_likes p.
Proof.
  unfold likedBy, req_user_id. rewrite bool_decide_eq_true, Exists_exists.
  rewrite list_elem_of_fmap. split.
  - intros (like & Hin & Heq). exists like. split; [|done].
    symmetry. by apply toString_inj.
  - intros (like & -> & Hin). by exists like.
Qed.

Lemma likedBy_false req p :
  likedBy req p = false <-> req_user req ∉ like_user <$> post_likes p.
Proof.
  rewrite <- likedBy_true. destruct (likedBy req p); split; congruence.
Qed.

(** ** PUT api/posts/like/:post_id *)

Lemma put_like_found env req w o p :
  castObjectId (req_params req params.post_id) = Some o ->
  Posts (db w) !! o = Some p ->
  put_like env req w =
    let w1 := logCall (Call_Post_findById (req_params req params.post_id)) w in
    if likedBy req p
    then (inr (mkResponse 400 (BMsg "Post already liked")), w1)
    else
      let likes := mkLike (req_user req) :: post_likes p in
      (inr (mkResponse 200 (BLikes likes)),
       setPosts (insert o (set_post_likes likes p)) (logCall (Call_Post_save o) w1)).
Proof.
  intros Hc Hp. unfold put_like. simpl.
  rewrite checkObjectId_valid by (by eapply isValid_cast).
  unfold put_like_handler. run_handler. rewrite Hc. simpl. rewrite Hp. simpl.
  by destruct (likedBy req p).
Qed.

(** ** PUT api/posts/unlike/:post_id *)

Lemma indexOf_splice_likes (likes : list Like) (u : ObjectId) :
  u ∈ like_user <$> likes ->
  exists l1 l2,
    likes = l1 ++ mkLike u :: l2
    /\ (u ∉ like_user <$> l1)
    /\ splice (indexOf (toString u) ((fun like => toString (like_user like)) <$> likes))
              1 likes = l1 ++ l2.
Proof.
  intros Hin. unfold indexOf.
  destruct (list_find (fun y => y = toString u)
              ((fun like => toString (like_user like)) <$> likes))
    as [[i y]|] eqn:Hfind.
  - apply list_find_Some in Hfind as (Hi & Hy & Hmin). subst y.
    rewrite list_lookup_fmap in Hi.
    destruct (likes !! i) as [[v]|] eqn:Hl; [|done].
    simpl in Hi. injection Hi as Hi. apply toString_inj in Hi as ->.
    exists (take i likes), (drop (S i) likes).
    split; [by rewrite take_drop_middle|].
    split.
    + intros (lk & Hu & Hlk)%list_elem_of_fmap.
      apply list_elem_of_lookup in Hlk as [j Hj].
      pose proof (lookup_lt_Some _ _ _ Hj) as Hlt.
      rewrite length_take in Hlt.
      rewrite lookup_take_lt in Hj by lia.
      apply (Hmin j (toString (like_user lk))); [|lia|by rewrite Hu].
      by rewrite list_lookup_fmap, Hj.
    + unfold splice.
      pose proof (lookup_lt_Some _ _ _ Hl) as Hlt.
      destruct (Z.of_nat i <? 0)%Z eqn:E; [apply Z.ltb_lt in E; lia|].
      rewrite Z.min_l by lia. rewrite Nat2Z.id.
      by replace (i + 1)%nat with (S i) by lia.
  - exfalso. apply list_find_None in Hfind.
    apply list_elem_of_fmap in Hin as (lk & -> & Hlk).
    rewrite Forall_forall in Hfind.
    apply (Hfind (toString (like_user lk))); [|done].
    apply list_elem_of_fmap. by exists lk.
Qed.

Lemma put_unlike_found env req w o p :
  castObjectId (req_params req params.post_id) = Some o ->
  Posts (db w) !! o = Some p ->
  put_unlike env req w =
    let w1 := logCall (Call_Post_findById (req_params req params.post_id)) w in
    if negb (likedBy req p)
    then (inr (mkResponse 400 (BMsg "Post has not yet been liked")), w1)
    else
      let likes :=
        splice (indexOf (req_user_id req)
                        ((fun like => toString (like_user like)) <$> post_likes p))
               1 (post_likes p) in
      (inr (mkResponse 200 (BLikes likes)),
       setPosts (insert o (set_post_likes likes p)) (logCall (Call_Post_save o) w1)).
Proof.
  intros Hc Hp. unfold put_unlike. simpl.
  rewrite checkObjectId_valid by (by eapply isValid_cast).
  unfold put_unlike_handler. run_handler. rewrite Hc. simpl. rewrite Hp. simpl.
  by destruct (likedBy req p).
Qed.

(** C5: on a stored post, PUT /posts/unlike/:id answers 400 'Post has not yet
    been liked' and leaves the store as it was when the user is not among the
    likes; otherwise it removes one like record, the first one of the user,
    and keeps every other record, in order. *)
Theorem put_unlike_removes_one (env : Env) (req : Request) (w : World)
    (o : ObjectId) (p : Post) :
  castObjectId (req_params req params.post_id) = Some o ->
  Posts (db w) !! o = Some p ->
  (req_user req ∉ like_user <$> post_likes p ->
     exists w',
       put_unlike env req w =
         (inr (mkResponse 400 (BMsg "Post has not yet been liked")), w')
       /\ db w' = db w)
  /\ (req_user req ∈ like_user <$> post_likes p ->
     exists l1 l2 w',
       post_likes p = l1 ++ mkLike (req_user req) :: l2
       /\ (req_user req ∉ like_user <$> l1)
       /\ put_unlike env req w = (inr (mkResponse 200 (BLikes (l1 ++ l2))), w')
       /\ Posts (db w') = <[o := set_post_likes (l1 ++ l2) p]> (Posts (db w))
       /\ Users (db w') = Users (db w)
       /\ length (l1 ++ l2) = pred (length (post_likes p))).
Proof.
  intros Hc Hp. rewrite (put_unlike_found env req w o p Hc Hp). simpl. split.
  - intros Hn. apply likedBy_false in Hn. rewrite Hn. simpl. eauto.
  - intros Hin. pose proof Hin as Hl. apply likedBy_true in Hl. rewrite Hl. simpl.
    destruct (indexOf_splice_likes _ _ Hin) as (l1 & l2 & Heq & Hn1 & Hs).
    exists l1, l2. eexists. split; [done|]. split; [done|].
    unfold req_user_id. rewrite Hs. split; [reflexivity|].
    split; [reflexivity|]. split; [reflexivity|].
    rewrite Heq, !length_app. simpl. lia.
Qed.

(** ** PUT api/posts/like/:post_id keeps the likes unique *)

Lemma likesUnique_insert w o p' :
  likesUnique (db w) ->
  NoDup (like_user <$> post_likes p') ->
  likesUnique (db (setPosts (insert o p') w)).
Proof.
  intros Hinv Hp' o' q. simpl.
  destruct (decide (o = o')) as [->|Hne].
  - rewrite lookup_insert_eq. by intros [= <-].
  - rewrite lookup_insert_ne by done. apply Hinv.
Qed.

Lemma likesUnique_delete w o :
  likesUnique (db w) -> likesUnique (db (setPosts (delete o) w)).
Proof.
  intros Hinv o' q. simpl. intros Hq.
  apply lookup_delete_Some in Hq as [_ Hq]. by eapply Hinv.
Qed.

Lemma splice_sublist {A} (start : Z) (n : nat) (l : list A) :
  splice start n l `sublist_of` l.
Proof.
  unfold splice.
  set (s := Z.to_nat _).
  rewrite <- (take_drop s l) at 3.
  apply sublist_app; [done|].
  rewrite <- drop_drop. apply sublist_drop.
Qed.

Ltac unfold_routes :=
  unfold post_root, get_root, get_post, delete_post, put_post, put_like,
    put_unlike, post_comment, delete_comment, put_comment, route;
  unfold checkObjectId, auth, check_text;
  unfold post_root_handler, get_root_handler, get_post_handler,
    delete_post_handler, put_post_handler, put_like_handler, put_unlike_handler,
    post_comment_handler, delete_comment_handler, put_comment_handler;
  run_handler.

Ltac found_post :=
  repeat match goal with
  | H : pair _ <$> _ !! _ = Some _ |- _ =>
      apply fmap_Some in H as (? & ? & ->); simpl in *
  | H : pair _ <$> _ !! _ = None |- _ =>
      apply fmap_None in H
  end.

(** Every route of the router keeps the likes of every stored post unique. *)
Lemma router_likesUnique r env req w :
  likesUnique (db w) -> likesUnique (db (snd (router r env req w))).
Proof.
  intros Hinv.
  destruct r; simpl; unfold_routes; repeat case_match; simplify_eq; simpl in *; try done.
  all: try (apply likesUnique_delete; simpl; done).
  all: apply likesUnique_insert; simpl; [done|]; found_post.
  all: try apply NoDup_nil_2.
  all: try (by eapply Hinv).
  - (* like *)
    apply NoDup_cons. split; [|by eapply Hinv].
    by apply likedBy_false.
  - (* unlike *)
    match goal with
    | Hx : Posts (db w) !! _ = Some ?x |- _ =>
        apply (sublist_NoDup _ (like_user <$> post_likes x));
          [by eapply Hinv | apply fmap_sublist, splice_sublist]
    end.
Qed.

(** C2: every route keeps at most one like per user in every stored post;
    on a stored post, PUT /posts/like/:id answers 400 'Post already liked'
    and leaves the store as it was when the user is among the likes, and
    otherwise puts exactly one like record of that user in front of the
    others. *)
Theorem put_like_at_most_once (env : Env) (req : Request) (w : World)
    (o : ObjectId) (p : Post) :
  castObjectId (req_params req params.post_id) = Some o ->
  Posts (db w) !! o = Some p ->
  (forall r env' req' w',
      likesUnique (db w') -> likesUnique (db (snd (router r env' req' w'))))
  /\ (req_user req ∈ like_user <$> post_likes p ->
      exists w',
        put_like env req w = (inr (mkResponse 400 (BMsg "Post already liked")), w')
        /\ db w' = db w)
  /\ (req_user req ∉ like_user <$> post_likes p ->
      exists w',
        put_like env req w =
          (inr (mkResponse 200 (BLikes (mkLike (req_user req) :: post_likes p))), w')
        /\ Posts (db w') =
             <[o := set_post_likes (mkLike (req_user req) :: post_likes p) p]> (Posts (db w))
        /\ Users (db w') = Users (db w)).
Proof.
  intros Hc Hp. split; [apply router_likesUnique|].
  rewrite (put_like_found env req w o p Hc Hp). simpl. split.
  - intros Hin. apply likedBy_true in Hin. rewrite Hin. eauto.
  - intros Hn. apply likedBy_false in Hn. rewrite Hn. eauto.
Qed.

Lemma put_like_at_most_once_witness :
  castObjectId (req_params (bob_on_post1 None) params.post_id) = Some post1_id
  /\ Posts (db w0) !! post1_id = Some post1
  /\ fst (put_like env0 (bob_on_post1 None) w0) =
       inr (mkResponse 200 (BLikes [mkLike bob; mkLike alice]))
  /\ fst (put_like env0 (alice_on_post1 None) w0) =
       inr (mkResponse 400 (BMsg "Post already liked")).
Proof.
  split; [vm_compute; reflexivity|]. split; [vm_compute; reflexivity|]. split.
  - destruct (put_like_at_most_once env0 (bob_on_post1 None) w0 post1_id post1)
      as (_ & _ & H); [vm_compute; reflexivity | vm_compute; reflexivity |].
    destruct H as (w' & Heq & _).
    + apply (bool_decide_unpack _). vm_compute. exact I.
    + rewrite Heq. reflexivity.
  - destruct (put_like_at_most_once env0 (alice_on_post1 None) w0 post1_id post1)
      as (_ & H & _); [vm_compute; reflexivity | vm_compute; reflexivity |].
    destruct H as (w' & Heq & _).
    + apply (bool_decide_unpack _). vm_compute. exact I.
    + rewrite Heq. reflexivity.
Defined.

Lemma put_unlike_removes_one_witness :
  castObjectId (req_params (alice_on_post1 None) params.post_id) = Some post1_id
  /\ Posts (db w0) !! post1_id = Some post1
  /\ fst (put_unlike env0 (bob_on_post1 None) w0) =
       inr (mkResponse 400 (BMsg "Post has not yet been liked"))
  /\ exists l1 l2,
       post_likes post1 = l1 ++ mkLike alice :: l2
       /\ fst (put_unlike env0 (alice_on_post1 None) w0) =
            inr (mkResponse 200 (BLikes (l1 ++ l2))).
Proof.
  split; [vm_compute; reflexivity|]. split; [vm_compute; reflexivity|]. split.
  - destruct (put_unlike_removes_one env0 (bob_on_post1 None) w0 post1_id post1)
      as (H & _); [vm_compute; reflexivity | vm_compute; reflexivity |].
    destruct H as (w' & Heq & _).
    + apply (bool_decide_unpack _). vm_compute. exact I.
    + rewrite Heq. reflexivity.
  - destruct (put_unlike_removes_one env0 (alice_on_post1 None) w0 post1_id post1)
      as (_ & H); [vm_compute; reflexivity | vm_compute; reflexivity |].
    destruct H as (l1 & l2 & w' & Hl & _ & Heq & _).
    + apply (bool_decide_unpack _). vm_compute. exact I.
    + exists l1, l2. split; [exact Hl|]. rewrite Heq. reflexivity.
Defined.

(** ** The id check in front of the handlers *)

(** POST api/posts/comment/:post_id never answers 'Invalid ID'. *)
Lemma post_comment_never_invalid_id env req w :
  fst (post_comment env req w) <> inr (mkResponse 400 (BMsg "Invalid ID")).
Proof.
  unfold_routes; repeat case_match; simplify_eq; simpl in *; discriminate.
Qed.

(** When the validation of the text has passed, the id that is no object id
    goes to the database as it is: the cast fails there and the handler's
    promise is rejected. *)
Lemma post_comment_unchecked_id env req w :
  isValid (req_params req params.post_id) = false ->
  validationResult req = [] ->
  post_comment env req w =
    (inl ReferenceError,
     logCall (Call_Post_findById (req_params req params.post_id))
             (logCall (Call_User_findById (req_user_id req)) w)).
Proof.
  intros Hv He. unfold isValid in Hv.
  unfold_routes. rewrite He. simpl.
  unfold req_user_id. rewrite castObjectId_toString.
  by destruct (castObjectId (req_params req params.post_id)).
Qed.

(** C9: when the post id of the request is not a well-formed object id,
    every route with a post id other than POST /posts/comment/:id answers
    400 'Invalid ID' and the database is neither changed nor called; POST
    /posts/comment/:id never gives that answer, and with a text that passes
    the validation it calls the database with the id as it came. *)
Theorem checkObjectId_guards_post_id (env : Env) (req : Request) (w : World) :
  isValid (req_params req params.post_id) = false ->
  let invalid : (Exn + Response) * World :=
    (inr (mkResponse 400 (BMsg "Invalid ID")), w) in
  get_post env req w = invalid
  /\ delete_post env req w = invalid
  /\ put_post env req w = invalid
  /\ put_like env req w = invalid
  /\ put_unlike env req w = invalid
  /\ delete_comment env req w = invalid
  /\ put_comment env req w = invalid
  /\ (forall env' req' w',
        fst (post_comment env' req' w') <> inr (mkResponse 400 (BMsg "Invalid ID")))
  /\ (validationResult req = [] ->
        post_comment env req w =
          (inl ReferenceError,
           logCall (Call_Post_findById (req_params req params.post_id))
                   (logCall (Call_User_findById (req_user_id req)) w))).
Proof.
  intros Hv. simpl.
  repeat split;
    try (unfold get_post, delete_post, put_post, put_like, put_unlike,
           delete_comment, put_comment; simpl;
         rewrite (checkObjectId_invalid params.post_id req Hv); reflexivity).
  - apply post_comment_never_invalid_id.
  - by apply post_comment_unchecked_id.
Qed.

Lemma checkObjectId_guards_post_id_witness :
  isValid (req_params (bob_on_malformed (Some "hi")) params.post_id) = false
  /\ put_like env0 (bob_on_malformed (Some "hi")) w0 =
       (inr (mkResponse 400 (BMsg "Invalid ID")), w0)
  /\ fst (post_comment env0 (bob_on_malformed (Some "hi")) w0) = inl ReferenceError.
Proof.
  split; [reflexivity|].
  destruct (checkObjectId_guards_post_id env0 (bob_on_malformed (Some "hi")) w0)
    as (_ & _ & _ & Hlike & _ & _ & _ & _ & Hpc); [reflexivity|].
  split; [exact Hlike|]. rewrite Hpc; reflexivity.
Defined.

(** ** Validation of the text *)


(** With the body as the only place that gives a text, a failed validation
    has the single error. *)
Lemma validationResult_failed_body req :
  req_cookies_text req = None -> req_headers_text req = None ->
  req_query_text req = None ->
  validationResult req <> [] -> validationResult req = textRequired.
Proof.
  destruct req as [u prm b c h q]. unfold validationResult, textInstances. simpl.
  intros -> -> ->. by destruct b as [[|? ?]|].
Qed.

(** The validation passes when a place gives the text and no place gives the
    empty string. *)
Lemma validationResult_passed req :
  validationResult req = [] <->
  (exists text, Some text ∈ [req_body_text req; req_cookies_text req;
                             req_headers_text req; req_query_text req])
  /\ Some "" ∉ [req_body_text req; req_cookies_text req; req_headers_text req;
                req_query_text req].
Proof.
  destruct req as [u prm b c h q]. unfold validationResult, textInstances. simpl.
  rewrite !elem_of_cons, elem_of_nil.
  setoid_rewrite elem_of_cons. setoid_rewrite elem_of_cons.
  setoid_rewrite elem_of_cons. setoid_rewrite elem_of_cons.
  setoid_rewrite elem_of_nil.
  destruct b as [[|? ?]|], c as [[|? ?]|], h as [[|? ?]|], q as [[|? ?]|]; simpl;
    (split; [intros Hv; try discriminate Hv | intros [(t & Ht) Hn]]).
  all: try (split; [eexists; eauto 6 | intros [?|[?|[?|[?|[]]]]]; discriminate]).
  all: try reflexivity.
  all: try (exfalso; apply Hn; eauto 6).
  all: destruct Ht as [?|[?|[?|[?|[]]]]]; discriminate.
Qed.

(** When the validation has passed, a text of the body is not empty. *)
Lemma validationResult_passed_body req text :
  validationResult req = [] -> req_body_text req = Some text -> text <> "".
Proof.
  intros Hv Hb ->. apply validationResult_passed in Hv as [_ Hn].
  apply Hn. rewrite <- Hb. apply list_elem_of_here.
Qed.



(** PUT /posts/:id with no text in the body, when the validation has passed
    on a text given elsewhere: the update is empty, and the answer is 200 with
    the post as it is. *)
Lemma put_post_without_body_text env req w o p :
  castObjectId (req_params req params.post_id) = Some o ->
  Posts (db w) !! o = Some p ->
  validationResult req = [] ->
  req_body_text req = None ->
  put_post env req w =
    (inr (mkResponse 200 (BPost (o, p))),
     logCall (Call_Post_findByIdAndUpdate (req_params req params.post_id) None) w).
Proof.
  intros Hc Hp Hv Hb. unfold put_post. simpl.
  rewrite checkObjectId_valid by (by eapply isValid_cast).
  unfold put_post_handler. rewrite Hv, Hb. run_handler.
  rewrite Hc. simpl. by rewrite Hp.
Qed.

(** A text in the query string alone passes the validation, although the
    handler reads the text of the body: PUT /posts/:id with the body [{}] and
    [?text=hi] is answered 200, with the post as it is. *)
Lemma put_post_text_in_query_only :
  req_body_text bob_text_in_query = None
  /\ validationResult bob_text_in_query = []
  /\ put_post env0 bob_text_in_query w0 =
       (inr (mkResponse 200 (BPost (post1_id, post1))),
        logCall (Call_Post_findByIdAndUpdate (toString post1_id) None) w0).
Proof.
  split; [reflexivity|]. split; [reflexivity|].
  apply put_post_without_body_text; [|vm_compute; reflexivity|reflexivity|reflexivity].
  apply castObjectId_toString.
Qed.


(** ** Ownership of comments *)

Lemma findComment_Some req p i c :
  findComment req p = Some (i, c) <->
  post_comments p !! i = Some c
  /\ comment_id c = req_params req params.comment_id
  /\ forall j c', post_comments p !! j = Some c' -> (j < i)%nat ->
                  comment_id c' <> req_params req params.comment_id.
Proof. unfold findComment. by rewrite list_find_Some. Qed.

(** Where the ids of the comments of a post are pairwise distinct, the
    comment found is the comment with the id of the request. *)
Lemma findComment_unique req p c :
  NoDup (comment__id <$> post_comments p) ->
  c ∈ post_comments p ->
  comment_id c = req_params req params.comment_id ->
  exists i, findComment req p = Some (i, c).
Proof.
  intros Hnd Hin Hid. unfold findComment.
  destruct (list_find (fun comment => comment_id comment = req_params req params.comment_id)
              (post_comments p)) as [[i c']|] eqn:Hf.
  - exists i. apply list_find_Some in Hf as (Hi & Hid' & _).
    apply list_elem_of_lookup in Hin as [j Hj].
    assert (Heq : comment__id c = comment__id c').
    { apply ObjectId_eq. unfold comment_id in *. congruence. }
    assert (j = i) as ->.
    { eapply NoDup_lookup; [exact Hnd| |].
      - rewrite list_lookup_fmap, Hj. reflexivity.
      - rewrite list_lookup_fmap, Hi. simpl. by rewrite Heq. }
    congruence.
  - apply list_find_None in Hf. rewrite Forall_forall in Hf.
    by destruct (Hf c Hin).
Qed.

Lemma delete_comment_found env req w o p i c :
  castObjectId (req_params req params.post_id) = Some o ->
  Posts (db w) !! o = Some p ->
  findComment req p = Some (i, c) ->
  delete_comment env req w =
    let w1 := logCall (Call_Post_findById (req_params req params.post_id)) w in
    if negb (bool_decide (toString (comment_user c) = req_user_id req))
    then (inr (mkResponse 401 (BMsg "User not authorized")), w1)
    else
      let comments :=
        filter (fun c' => comment_id c' <> req_params req params.comment_id)
               (post_comments p) in
      (inr (mkResponse 200 (BComments comments)),
       setPosts (insert o (set_post_comments comments p)) (logCall (Call_Post_save o) w1)).
Proof.
  intros Hc Hp Hf.
  assert (Hcid : isValid (req_params req params.comment_id) = true).
  { apply findComment_Some in Hf as (_ & <- & _). apply isValid_toString. }
  unfold delete_comment. simpl.
  rewrite checkObjectId_valid by (by eapply isValid_cast).
  rewrite checkObjectId_valid by done.
  unfold delete_comment_handler. run_handler. rewrite Hc. simpl. rewrite Hp. simpl.
  rewrite Hf.
  by destruct (negb (bool_decide (toString (comment_user c) = req_user_id req))).
Qed.

Lemma put_comment_found env req w o p i c :
  castObjectId (req_params req params.post_id) = Some o ->
  Posts (db w) !! o = Some p ->
  findComment req p = Some (i, c) ->
  validationResult req = [] ->
  put_comment env req w =
    let w1 := logCall (Call_Post_findById (req_params req params.post_id)) w in
    if negb (bool_decide (toString (comment_user c) = req_user_id req))
    then (inr (mkResponse 401 (BMsg "User not authorized")), w1)
    else
      match req_body_text req with
      | Some _ =>
          let comments :=
            <[i := set_comment_text (req_text req) c]> (post_comments p) in
          (inr (mkResponse 200 (BComments comments)),
           setPosts (insert o (set_post_comments comments p))
             (logCall (Call_Post_save o) w1))
      | None => (inr (mkResponse 500 (BText "Server Error")), w1)
      end.
Proof.
  intros Hc Hp Hf Hv.
  assert (Hcid : isValid (req_params req params.comment_id) = true).
  { apply findComment_Some in Hf as (_ & <- & _). apply isValid_toString. }
  unfold put_comment. simpl.
  rewrite checkObjectId_valid by (by eapply isValid_cast).
  rewrite checkObjectId_valid by done.
  unfold put_comment_handler. rewrite Hv. run_handler.
  rewrite Hc. simpl. rewrite Hp. simpl.
  rewrite Hf.
  by destruct (negb (bool_decide (toString (comment_user c) = req_user_id req))),
       (req_body_text req).
Qed.

Lemma not_owner_test (owner : ObjectId) req :
  owner <> req_user req ->
  negb (bool_decide (toString owner = req_user_id req)) = true.
Proof.
  intros Hne. apply negb_true_iff, bool_decide_eq_false.
  unfold req_user_id. by rewrite toString_inj.
Qed.

Lemma put_comment_without_text env req w :
  isValid (req_params req params.post_id) = true ->
  isValid (req_params req params.comment_id) = true ->
  validationResult req <> [] ->
  put_comment env req w = (inr (mkResponse 400 (BErrors (validationResult req))), w).
Proof.
  intros Hp Hc Hv.
  unfold_routes. rewrite Hp, Hc. simpl.
  by destruct (validationResult req).
Qed.

(** C6, as the code has it: for a stored post and the comment on it that the
    request names, when the requesting user is not the owner of the comment,
    DELETE /posts/comment/:id/:cid answers 401, and so does PUT
    /posts/comment/:id/:cid when the validation of the text has passed; a PUT
    whose text does not pass it is answered 400 with the validation errors,
    which are the single error 'Text is required' when the body is the only
    place that can give a text.  In each case the database is left as it
    was. *)
Theorem comment_non_owner_rejected (env : Env) (req : Request) (w : World)
    (o : ObjectId) (p : Post) (i : nat) (c : Comment) :
  castObjectId (req_params req params.post_id) = Some o ->
  Posts (db w) !! o = Some p ->
  findComment req p = Some (i, c) ->
  comment_user c <> req_user req ->
  (exists w',
      delete_comment env req w = (inr (mkResponse 401 (BMsg "User not authorized")), w')
      /\ db w' = db w)
  /\ (validationResult req = [] ->
      exists w',
        put_comment env req w = (inr (mkResponse 401 (BMsg "User not authorized")), w')
        /\ db w' = db w)
  /\ (validationResult req <> [] ->
      put_comment env req w =
        (inr (mkResponse 400 (BErrors (validationResult req))), w)
      /\ (req_cookies_text req = None -> req_headers_text req = None ->
          req_query_text req = None -> validationResult req = textRequired)).
Proof.
  intros Hc Hp Hf Hne. split; [|split].
  - rewrite (delete_comment_found env req w o p i c Hc Hp Hf). simpl.
    rewrite not_owner_test by done. eauto.
  - intros Hv. rewrite (put_comment_found env req w o p i c Hc Hp Hf Hv). simpl.
    rewrite not_owner_test by done. eauto.
  - intros Hv. split; [|intros; by apply validationResult_failed_body].
    apply put_comment_without_text; [by eapply isValid_cast | | done].
    apply findComment_Some in Hf as (_ & <- & _). apply isValid_toString.
Qed.

Lemma comment_non_owner_rejected_witness :
  castObjectId (req_params (bob_on_post1 (Some "mine")) params.post_id) = Some post1_id
  /\ Posts (db w0) !! post1_id = Some post1
  /\ findComment (bob_on_post1 (Some "mine")) post1 = Some (1%nat, comment1)
  /\ comment_user comment1 <> req_user (bob_on_post1 (Some "mine"))
  /\ fst (delete_comment env0 (bob_on_post1 (Some "mine")) w0) =
       inr (mkResponse 401 (BMsg "User not authorized"))
  /\ fst (put_comment env0 (bob_on_post1 (Some "mine")) w0) =
       inr (mkResponse 401 (BMsg "User not authorized")).
Proof.
  assert (Hne : comment_user comment1 <> req_user (bob_on_post1 (Some "mine"))).
  { apply (bool_decide_unpack _). vm_compute. exact I. }
  split; [vm_compute; reflexivity|]. split; [vm_compute; reflexivity|].
  split; [vm_compute; reflexivity|]. split; [exact Hne|].
  destruct (comment_non_owner_rejected env0 (bob_on_post1 (Some "mine")) w0
              post1_id post1 1%nat comment1)
    as ((wd & Hd & _) & Hput & _);
    [vm_compute; reflexivity | vm_compute; reflexivity | vm_compute; reflexivity
    | exact Hne |].
  destruct Hput as (wp & Hp & _); [reflexivity|].
  split; [rewrite Hd | rewrite Hp]; reflexivity.
Defined.

(** C6, as it was written, fails: Bob's PUT on Alice's comment without a
    text is answered 400 with the validation errors, not 401. *)
Lemma put_comment_non_owner_without_text :
  castObjectId (req_params (bob_on_post1 None) params.post_id) = Some post1_id
  /\ Posts (db w0) !! post1_id = Some post1
  /\ findComment (bob_on_post1 None) post1 = Some (1%nat, comment1)
  /\ comment_user comment1 <> req_user (bob_on_post1 None)
  /\ put_comment env0 (bob_on_post1 None) w0 =
       (inr (mkResponse 400 (BErrors textRequired)), w0)
  /\ fst (put_comment env0 (bob_on_post1 None) w0) <>
       inr (mkResponse 401 (BMsg "User not authorized")).
Proof.
  split; [vm_compute; reflexivity|]. split; [vm_compute; reflexivity|].
  split; [vm_compute; reflexivity|].
  split; [apply (bool_decide_unpack _); vm_compute; exact I|].
  split; [reflexivity|]. discriminate.
Qed.

(** ** What a successful update leaves alone *)

(** C10: when a like, an unlike, a new comment, the edit of a comment or the
    removal of a comment succeeds, the post of the request is written back
    with its text, name, avatar, author and date as they were; the edit of a
    comment moreover leaves the likes as they were and changes, among the
    comments, only the text of the comment found: its id, user, name, avatar
    and date and every other comment stay. *)
Theorem successful_update_frame (rt : Route) (env : Env) (req : Request)
    (w w' : World) (res : Response) :
  rt ∈ [PUT_like; PUT_unlike; POST_comment; PUT_comment; DELETE_comment] ->
  router rt env req w = (inr res, w') ->
  status res = 200%nat ->
  exists o p p',
    castObjectId (req_params req params.post_id) = Some o
    /\ Posts (db w) !! o = Some p
    /\ Posts (db w') = <[o := p']> (Posts (db w))
    /\ Users (db w') = Users (db w)
    /\ post_text p' = post_text p
    /\ post_name p' = post_name p
    /\ post_avatar p' = post_avatar p
    /\ post_user p' = post_user p
    /\ post_date p' = post_date p
    /\ (rt = PUT_comment ->
        post_likes p' = post_likes p
        /\ exists i c c',
             findComment req p = Some (i, c)
             /\ post_comments p' = <[i := c']> (post_comments p)
             /\ post_comments p' !! i = Some c'
             /\ (forall j, j <> i -> post_comments p' !! j = post_comments p !! j)
             /\ length (post_comments p') = length (post_comments p)
             /\ comment_text c' = req_text req
             /\ comment__id c' = comment__id c
             /\ comment_user c' = comment_user c
             /\ comment_name c' = comment_name c
             /\ comment_avatar c' = comment_avatar c
             /\ comment_date c' = comment_date c).
Proof.
  intros Hrt Hrun Hst.
  repeat (apply elem_of_cons in Hrt as [-> | Hrt]); [| | | | |by apply elem_of_nil in Hrt];
    revert Hrun; simpl; unfold_routes; repeat case_match; intros Hrun;
    simplify_eq; simpl in *; found_post.
  all: eexists _, _, _; repeat (split; [done || reflexivity|]); try done.
  simpl.
  match goal with
  | Hf : findComment _ _ = Some (?i, ?c) |- _ =>
      exists i, c, (set_comment_text (req_text req) c);
      pose proof (proj1 (findComment_Some _ _ _ _) Hf) as (Hi & _ & _)
  end.
  pose proof (lookup_lt_Some _ _ _ Hi) as Hlt.
  split; [done|]. split; [done|].
  split; [by apply list_lookup_insert_eq|].
  split; [intros j Hj; by apply list_lookup_insert_ne|].
  split; [apply length_insert|]. done.
Qed.

Lemma successful_update_frame_witness :
  PUT_comment ∈ [PUT_like; PUT_unlike; POST_comment; PUT_comment; DELETE_comment]
  /\ router PUT_comment env0 (alice_on_post1 (Some "edited")) w0 =
       (inr (mkResponse 200
               (BComments [comment2; set_comment_text "edited" comment1])),
        snd (router PUT_comment env0 (alice_on_post1 (Some "edited")) w0))
  /\ exists p',
       Posts (db (snd (router PUT_comment env0 (alice_on_post1 (Some "edited")) w0))) =
         <[post1_id := p']> (Posts (db w0))
       /\ post_text p' = "hello"
       /\ post_user p' = alice
       /\ post_likes p' = [mkLike alice].
Proof.
  assert (Hmem : PUT_comment ∈
            [PUT_like; PUT_unlike; POST_comment; PUT_comment; DELETE_comment]).
  { repeat constructor. }
  assert (Hc0 : castObjectId (req_params (alice_on_post1 (Some "edited")) params.post_id) =
                Some post1_id) by (vm_compute; reflexivity).
  assert (Hp1 : Posts (db w0) !! post1_id = Some post1) by (vm_compute; reflexivity).
  assert (Hout : router PUT_comment env0 (alice_on_post1 (Some "edited")) w0 =
            (inr (mkResponse 200
                    (BComments [comment2; set_comment_text "edited" comment1])),
             snd (router PUT_comment env0 (alice_on_post1 (Some "edited")) w0))).
  { simpl router.
    rewrite (put_comment_found env0 (alice_on_post1 (Some "edited")) w0
               post1_id post1 1%nat comment1 Hc0 Hp1);
      [reflexivity | vm_compute; reflexivity | reflexivity]. }
  split; [exact Hmem|]. split; [exact Hout|].
  destruct (successful_update_frame PUT_comment env0 (alice_on_post1 (Some "edited"))
              w0 _ _ Hmem Hout eq_refl)
    as (o & p & p' & Hc & Hp & Hposts & _ & Ht & _ & _ & Hu & _ & Hedit).
  rewrite Hc0 in Hc. injection Hc as <-.
  rewrite Hp1 in Hp. injection Hp as <-.
  destruct (Hedit eq_refl) as (Hl & _).
  exists p'. split; [exact Hposts|]. split; [exact Ht|]. split; [exact Hu | exact Hl].
Defined.

(** ** Ownership of posts *)

(** DELETE api/posts/:post_id by a user who is not the author of the post:
    401, and the database is left as it was. *)
Lemma delete_post_non_owner env req w o p :
  castObjectId (req_params req params.post_id) = Some o ->
  Posts (db w) !! o = Some p ->
  post_user p <> req_user req ->
  delete_post env req w =
    (inr (mkResponse 401 (BMsg "User not authorized")),
     logCall (Call_Post_findById (req_params req params.post_id)) w).
Proof.
  intros Hc Hp Hne. unfold delete_post. simpl.
  rewrite checkObjectId_valid by (by eapply isValid_cast).
  unfold delete_post_handler. run_handler. rewrite Hc. simpl. rewrite Hp. simpl.
  by rewrite not_owner_test.
Qed.

(** PUT api/posts/:post_id never looks at the author of the post: whoever
    sends a text gets it written. *)
Lemma put_post_any_user env req w o p :
  castObjectId (req_params req params.post_id) = Some o ->
  Posts (db w) !! o = Some p ->
  validationResult req = [] ->
  put_post env req w =
    match req_body_text req with
    | Some text =>
        (inr (mkResponse 200 (BPost (o, set_post_text text p))),
         setPosts (insert o (set_post_text text p))
           (logCall (Call_Post_findByIdAndUpdate (req_params req params.post_id)
                       (Some text)) w))
    | None =>
        (inr (mkResponse 200 (BPost (o, p))),
         logCall (Call_Post_findByIdAndUpdate (req_params req params.post_id) None) w)
    end.
Proof.
  intros Hc Hp Hv. unfold put_post. simpl.
  rewrite checkObjectId_valid by (by eapply isValid_cast).
  unfold put_post_handler. rewrite Hv. run_handler.
  rewrite Hc. simpl. rewrite Hp. by destruct (req_body_text req).
Qed.

(** C1: Bob is not the author of Alice's post.  His DELETE is answered 401
    and the post stays, but his PUT with a text is answered 200 and the text
    of Alice's post is replaced. *)
Theorem put_post_ignores_owner :
  Posts (db w0) !! post1_id = Some post1
  /\ post_user post1 <> req_user (bob_on_post1 (Some "hacked"))
  /\ delete_post env0 (bob_on_post1 (Some "hacked")) w0 =
       (inr (mkResponse 401 (BMsg "User not authorized")),
        logCall (Call_Post_findById (toString post1_id)) w0)
  /\ fst (put_post env0 (bob_on_post1 (Some "hacked")) w0) =
       inr (mkResponse 200 (BPost (post1_id, set_post_text "hacked" post1)))
  /\ Posts (db (snd (put_post env0 (bob_on_post1 (Some "hacked")) w0))) !! post1_id =
       Some (set_post_text "hacked" post1)
  /\ set_post_text "hacked" post1 <> post1.
Proof.
  assert (Hc : castObjectId (req_params (bob_on_post1 (Some "hacked")) params.post_id) =
               Some post1_id) by (vm_compute; reflexivity).
  assert (Hp : Posts (db w0) !! post1_id = Some post1) by (vm_compute; reflexivity).
  assert (Hne : post_user post1 <> req_user (bob_on_post1 (Some "hacked"))).
  { apply (bool_decide_unpack _). vm_compute. exact I. }
  split; [exact Hp|]. split; [exact Hne|].
  split; [exact (delete_post_non_owner env0 _ w0 _ _ Hc Hp Hne)|].
  rewrite (put_post_any_user env0 _ w0 _ _ Hc Hp eq_refl).
  change (req_body_text (bob_on_post1 (Some "hacked"))) with (Some "hacked").
  simpl.
  split; [reflexivity|]. split; [apply lookup_insert_eq|]. discriminate.
Qed.

(** ** Posts that do not exist *)

Lemma delete_post_missing env req w o :
  castObjectId (req_params req params.post_id) = Some o ->
  Posts (db w) !! o = None ->
  delete_post env req w =
    (inr (mkResponse 404 (BMsg "Post not found")),
     logCall (Call_Post_findById (req_params req params.post_id)) w).
Proof.
  intros Hc Hp. unfold delete_post. simpl.
  rewrite checkObjectId_valid by (by eapply isValid_cast).
  unfold delete_post_handler. run_handler. rewrite Hc. simpl. by rewrite Hp.
Qed.

(** On a stored post, a well-formed comment id that none of its comments
    has: 404. *)
Lemma delete_comment_missing_comment env req w o p :
  castObjectId (req_params req params.post_id) = Some o ->
  Posts (db w) !! o = Some p ->
  isValid (req_params req params.comment_id) = true ->
  (forall c, c ∈ post_comments p -> comment_id c <> req_params req params.comment_id) ->
  delete_comment env req w =
    (inr (mkResponse 404 (BMsg "Comment does not exist")),
     logCall (Call_Post_findById (req_params req params.post_id)) w).
Proof.
  intros Hc Hp Hv Hno. unfold delete_comment. simpl.
  rewrite checkObjectId_valid by (by eapply isValid_cast).
  rewrite checkObjectId_valid by done.
  unfold delete_comment_handler. run_handler. rewrite Hc. simpl. rewrite Hp. simpl.
  assert (Hf : findComment req p = None).
  { unfold findComment. apply list_find_None, Forall_forall. exact Hno. }
  by rewrite Hf.
Qed.

(** The handlers that read a field of the post before (or without) testing
    it for [null]: the [TypeError] ends in the [catch] block. *)
Lemma missing_post_server_error env req w o :
  castObjectId (req_params req params.post_id) = Some o ->
  Posts (db w) !! o = None ->
  let w1 := logCall (Call_Post_findById (req_params req params.post_id)) w in
  put_like env req w = (inr (mkResponse 500 (BText "Server Error")), w1)
  /\ put_unlike env req w = (inr (mkResponse 500 (BText "Server Error")), w1)
  /\ (isValid (req_params req params.comment_id) = true ->
      delete_comment env req w = (inr (mkResponse 500 (BText "Server Error")), w1))
  /\ (isValid (req_params req params.comment_id) = true -> validationResult req = [] ->
      put_comment env req w = (inr (mkResponse 500 (BText "Server Error")), w1))
  /\ (validationResult req = [] ->
      post_comment env req w =
        (inl ReferenceError,
         logCall (Call_Post_findById (req_params req params.post_id))
                 (logCall (Call_User_findById (req_user_id req)) w))).
Proof.
  intros Hc Hp. pose proof (isValid_cast _ _ Hc) as Hv. simpl.
  repeat split; try intros Hv2; try intros He; unfold_routes;
    rewrite ?Hv, ?Hv2, ?He; simpl; rewrite ?Hc; simpl; rewrite ?Hp; simpl; try done.
  unfold req_user_id. rewrite castObjectId_toString. simpl.
  rewrite Hp. simpl. by destruct (Users (db w) !! req_user req).
Qed.

(** C4: the database has no post with the id of the request.  DELETE
    /posts/:id is answered 404; DELETE /posts/comment/:id/:cid is answered
    500 'Server Error', not 404: the handler reads the comments of the post
    before it tests the post for [null]. *)
Theorem delete_comment_missing_post :
  castObjectId (req_params (bob_on_missing None) params.post_id) = Some missing_oid
  /\ isValid (req_params (bob_on_missing None) params.comment_id) = true
  /\ Posts (db w0) !! missing_oid = None
  /\ fst (delete_post env0 (bob_on_missing None) w0) =
       inr (mkResponse 404 (BMsg "Post not found"))
  /\ fst (delete_comment env0 (bob_on_missing None) w0) =
       inr (mkResponse 500 (BText "Server Error"))
  /\ db (snd (delete_comment env0 (bob_on_missing None) w0)) = db w0.
Proof.
  repeat split; vm_compute; reflexivity.
Qed.

(** C7: the database has no post with the id of the request.  PUT
    /posts/like/:id and PUT /posts/unlike/:id are answered 500 'Server
    Error', and the handler of POST /posts/comment/:id ends with its promise
    rejected; none of them answers 404. *)
Theorem missing_post_not_404 :
  castObjectId (req_params (bob_on_missing (Some "hi")) params.post_id) = Some missing_oid
  /\ Posts (db w0) !! missing_oid = None
  /\ fst (put_like env0 (bob_on_missing (Some "hi")) w0) =
       inr (mkResponse 500 (BText "Server Error"))
  /\ fst (put_unlike env0 (bob_on_missing (Some "hi")) w0) =
       inr (mkResponse 500 (BText "Server Error"))
  /\ fst (post_comment env0 (bob_on_missing (Some "hi")) w0) = inl ReferenceError.
Proof.
  repeat split; vm_compute; reflexivity.
Qed.

(** * Further properties of the router *)

(** ** The outcome of each route on a request that passes its checks *)

Lemma set_post_likes_id p : set_post_likes (post_likes p) p = p.
Proof. by destruct p. Qed.

Lemma set_post_comments_id p : set_post_comments (post_comments p) p = p.
Proof. by destruct p. Qed.

Lemma setPosts_insert_id w o p :
  Posts (db w) !! o = Some p -> db (setPosts (insert o p) w) = db w.
Proof.
  intros Hp. unfold setPosts. simpl. rewrite insert_id by done. by destruct (db w).
Qed.

Lemma post_root_found env req w u text :
  validationResult req = [] ->
  req_body_text req = Some text ->
  Users (db w) !! req_user req = Some u ->
  post_root env req w =
    let newPost : PostDoc :=
      (env_newId env,
       mkPost (req_user req) (req_text req) (user_name u) (user_avatar u)
              [] [] (env_now env)) in
    (inr (mkResponse 200 (BPost newPost)),
     setPosts (insert (fst newPost) (snd newPost))
       (logCall (Call_Post_save (fst newPost))
          (logCall (Call_User_findById (req_user_id req)) w))).
Proof.
  intros Hv Hb Hu. unfold_routes. rewrite Hv, Hb. simpl.
  unfold req_user_id. rewrite castObjectId_toString. simpl. by rewrite Hu.
Qed.

Lemma get_post_found env req w o :
  castObjectId (req_params req params.post_id) = Some o ->
  get_post env req w =
    (inr (match Posts (db w) !! o with
          | Some p => mkResponse 200 (BPost (o, p))
          | None => mkResponse 404 (BMsg "Post not found")
          end),
     logCall (Call_Post_findById (req_params req params.post_id)) w).
Proof.
  intros Hc. unfold get_post. simpl.
  rewrite checkObjectId_valid by (by eapply isValid_cast).
  unfold get_post_handler. run_handler. rewrite Hc. simpl.
  by destruct (Posts (db w) !! o).
Qed.

Lemma delete_post_owner env req w o p :
  castObjectId (req_params req params.post_id) = Some o ->
  Posts (db w) !! o = Some p ->
  post_user p = req_user req ->
  delete_post env req w =
    (inr (mkResponse 200 (BMsg "Post Removed")),
     setPosts (delete o)
       (logCall (Call_Post_deleteOne o)
          (logCall (Call_Post_findById (req_params req params.post_id)) w))).
Proof.
  intros Hc Hp Ho. unfold delete_post. simpl.
  rewrite checkObjectId_valid by (by eapply isValid_cast).
  unfold delete_post_handler. run_handler. rewrite Hc. simpl. rewrite Hp. simpl.
  unfold req_user_id. rewrite Ho. by rewrite bool_decide_eq_true_2.
Qed.

Lemma put_post_missing env req w o :
  castObjectId (req_params req params.post_id) = Some o ->
  Posts (db w) !! o = None ->
  validationResult req = [] ->
  put_post env req w =
    (inr (mkResponse 404 (BMsg "Post not found")),
     logCall (Call_Post_findByIdAndUpdate (req_params req params.post_id)
                (req_body_text req)) w).
Proof.
  intros Hc Hp Hv. unfold put_post. simpl.
  rewrite checkObjectId_valid by (by eapply isValid_cast).
  unfold put_post_handler. rewrite Hv. run_handler.
  rewrite Hc. simpl. by rewrite Hp.
Qed.

Lemma post_comment_found env req w u o p text :
  validationResult req = [] ->
  req_body_text req = Some text ->
  Users (db w) !! req_user req = Some u ->
  castObjectId (req_params req params.post_id) = Some o ->
  Posts (db w) !! o = Some p ->
  post_comment env req w =
    let newComment :=
      mkComment (env_newId env) (req_user req) (req_text req)
                (user_name u) (user_avatar u) (env_now env) in
    (inr (mkResponse 200 (BComments (newComment :: post_comments p))),
     setPosts (insert o (set_post_comments (newComment :: post_comments p) p))
       (logCall (Call_Post_save o)
          (logCall (Call_Post_findById (req_params req params.post_id))
             (logCall (Call_User_findById (req_user_id req)) w)))).
Proof.
  intros Hv Hb Hu Hc Hp. unfold_routes. rewrite Hv, Hb. simpl.
  unfold req_user_id. rewrite castObjectId_toString. simpl.
  rewrite Hu, Hc. simpl. by rewrite Hp.
Qed.

Lemma owner_test (owner : ObjectId) req :
  owner = req_user req ->
  negb (bool_decide (toString owner = req_user_id req)) = false.
Proof. intros ->. unfold req_user_id. by rewrite bool_decide_eq_true_2. Qed.

(** Facts about the sample database. *)
Lemma w0_post1 : Posts (db w0) !! post1_id = Some post1.
Proof. vm_compute. reflexivity. Qed.

Lemma w0_post2 : Posts (db w0) !! post2_id = Some post2.
Proof. vm_compute. reflexivity. Qed.

Lemma w0_missing : Posts (db w0) !! missing_oid = None.
Proof. vm_compute. reflexivity. Qed.

Lemma w0_fresh : Posts (db w0) !! fresh_id = None.
Proof. vm_compute. reflexivity. Qed.

Lemma w0_alice : Users (db w0) !! alice = Some (mkUser "Alice" "alice.png").
Proof. vm_compute. reflexivity. Qed.

Lemma w0_bob : Users (db w0) !! bob = Some (mkUser "Bob" "bob.png").
Proof. vm_compute. reflexivity. Qed.

Lemma cast_post1 : castObjectId (toString post1_id) = Some post1_id.
Proof. vm_compute. reflexivity. Qed.

Lemma cast_missing : castObjectId missing_id = Some missing_oid.
Proof. vm_compute. reflexivity. Qed.

(** ** Creating, reading, editing and removing a post *)

(** X1: a POST /posts with a text in its body that has passed the
    validation, by a user of the database, answers 200
    with a post that has the requester as author, the name and the avatar of
    the user's record, no likes and no comments; the post is stored under
    its new id, and a GET /posts/:id with that id then answers 200 with the
    same post. *)
Theorem post_root_then_get_post (env env' : Env) (req req' : Request)
    (w : World) (u : User) (text : string) :
  validationResult req = [] ->
  req_body_text req = Some text ->
  Users (db w) !! req_user req = Some u ->
  req_params req' params.post_id = toString (env_newId env) ->
  exists (newPost : Post) (w1 : World),
    post_root env req w = (inr (mkResponse 200 (BPost (env_newId env, newPost))), w1)
    /\ Posts (db w1) = <[env_newId env := newPost]> (Posts (db w))
    /\ post_user newPost = req_user req
    /\ req_body_text req = Some (post_text newPost)
    /\ post_name newPost = user_name u
    /\ post_avatar newPost = user_avatar u
    /\ post_likes newPost = []
    /\ post_comments newPost = []
    /\ post_date newPost = env_now env
    /\ fst (get_post env' req' w1) =
         inr (mkResponse 200 (BPost (env_newId env, newPost))).
Proof.
  intros Hv Hb Hu Hid.
  rewrite (post_root_found env req w u text Hv Hb Hu). simpl.
  eexists _, _. split; [reflexivity|]. split; [reflexivity|]. simpl.
  split; [done|]. split.
  { unfold req_text. by rewrite Hb. }
  do 5 (split; [done|]).
  rewrite (get_post_found env' req' _ (env_newId env))
    by (rewrite Hid; apply castObjectId_toString).
  simpl. by rewrite lookup_insert_eq.
Qed.

Lemma post_root_then_get_post_witness :
  validationResult (bob_on_post1 (Some "new post")) = []
  /\ req_body_text (bob_on_post1 (Some "new post")) = Some "new post"
  /\ Users (db w0) !! req_user (bob_on_post1 (Some "new post")) =
       Some (mkUser "Bob" "bob.png")
  /\ req_params (mkRequest alice (mkParams (toString fresh_id) "") None) params.post_id =
       toString (env_newId env0)
  /\ exists newPost w1,
       post_root env0 (bob_on_post1 (Some "new post")) w0 =
         (inr (mkResponse 200 (BPost (fresh_id, newPost))), w1)
       /\ post_text newPost = "new post"
       /\ post_name newPost = "Bob"
       /\ fst (get_post env0 (mkRequest alice (mkParams (toString fresh_id) "") None) w1) =
            inr (mkResponse 200 (BPost (fresh_id, newPost))).
Proof.
  split; [reflexivity|]. split; [reflexivity|]. split; [exact w0_bob|].
  split; [reflexivity|].
  destruct (post_root_then_get_post env0 env0 (bob_on_post1 (Some "new post"))
              (mkRequest alice (mkParams (toString fresh_id) "") None) w0
              (mkUser "Bob" "bob.png") "new post" eq_refl eq_refl w0_bob eq_refl)
    as (newPost & w1 & Hrun & _ & _ & Ht & Hn & _ & _ & _ & _ & Hget).
  exists newPost, w1. split; [exact Hrun|].
  split; [simpl in Ht; congruence|]. split; [exact Hn | exact Hget].
Defined.

(** X2: GET /posts/:id with a well-formed id answers 200 with the post
    stored under that id when there is one and 404 'Post not found' when
    there is none; the database is left as it was. *)
Theorem get_post_found_or_404 (env : Env) (req : Request) (w : World) (o : ObjectId) :
  castObjectId (req_params req params.post_id) = Some o ->
  exists w',
    db w' = db w
    /\ (forall p, Posts (db w) !! o = Some p ->
          get_post env req w = (inr (mkResponse 200 (BPost (o, p))), w'))
    /\ (Posts (db w) !! o = None ->
          get_post env req w = (inr (mkResponse 404 (BMsg "Post not found")), w')).
Proof.
  intros Hc. rewrite (get_post_found env req w o Hc).
  exists (logCall (Call_Post_findById (req_params req params.post_id)) w).
  split; [reflexivity|]. split.
  - by intros p ->.
  - by intros ->.
Qed.

Lemma get_post_found_or_404_witness :
  castObjectId (req_params (bob_on_post1 None) params.post_id) = Some post1_id
  /\ castObjectId (req_params (bob_on_missing None) params.post_id) = Some missing_oid
  /\ fst (get_post env0 (bob_on_post1 None) w0) =
       inr (mkResponse 200 (BPost (post1_id, post1)))
  /\ fst (get_post env0 (bob_on_missing None) w0) =
       inr (mkResponse 404 (BMsg "Post not found")).
Proof.
  assert (H1 : castObjectId (req_params (bob_on_post1 None) params.post_id) =
               Some post1_id) by exact cast_post1.
  assert (H2 : castObjectId (req_params (bob_on_missing None) params.post_id) =
               Some missing_oid) by exact cast_missing.
  split; [exact H1|]. split; [exact H2|]. split.
  - destruct (get_post_found_or_404 env0 (bob_on_post1 None) w0 post1_id H1)
      as (w' & _ & Hf & _).
    by rewrite (Hf post1 w0_post1).
  - destruct (get_post_found_or_404 env0 (bob_on_missing None) w0 missing_oid H2)
      as (w' & _ & _ & Hn).
    by rewrite (Hn w0_missing).
Defined.

(** X3: when the author of a stored post sends DELETE /posts/:id, the
    answer is 200 'Post Removed', the post is taken out of the database and
    every other post and every user stay; a GET or a second DELETE with the
    same id then answers 404 'Post not found'. *)
Theorem delete_post_by_owner (env env' : Env) (req req' : Request) (w : World)
    (o : ObjectId) (p : Post) :
  castObjectId (req_params req params.post_id) = Some o ->
  Posts (db w) !! o = Some p ->
  post_user p = req_user req ->
  req_params req' params.post_id = req_params req params.post_id ->
  exists w1,
    delete_post env req w = (inr (mkResponse 200 (BMsg "Post Removed")), w1)
    /\ Posts (db w1) !! o = None
    /\ (forall o', o' <> o -> Posts (db w1) !! o' = Posts (db w) !! o')
    /\ Users (db w1) = Users (db w)
    /\ fst (get_post env' req' w1) = inr (mkResponse 404 (BMsg "Post not found"))
    /\ fst (delete_post env' req' w1) = inr (mkResponse 404 (BMsg "Post not found")).
Proof.
  intros Hc Hp Ho Hid.
  rewrite (delete_post_owner env req w o p Hc Hp Ho).
  eexists. split; [reflexivity|]. simpl.
  split; [apply lookup_delete_eq|].
  split; [intros o' Hne; by apply lookup_delete_ne|].
  split; [reflexivity|].
  assert (Hc' : castObjectId (req_params req' params.post_id) = Some o) by by rewrite Hid.
  split.
  - rewrite (get_post_found env' req' _ o Hc'). simpl. by rewrite lookup_delete_eq.
  - rewrite (delete_post_missing env' req' _ o Hc'); [done|].
    simpl. apply lookup_delete_eq.
Qed.

Lemma delete_post_by_owner_witness :
  castObjectId (req_params (alice_on_post1 None) params.post_id) = Some post1_id
  /\ Posts (db w0) !! post1_id = Some post1
  /\ post_user post1 = req_user (alice_on_post1 None)
  /\ req_params (bob_on_post1 None) params.post_id =
       req_params (alice_on_post1 None) params.post_id
  /\ exists w1,
       delete_post env0 (alice_on_post1 None) w0 =
         (inr (mkResponse 200 (BMsg "Post Removed")), w1)
       /\ Posts (db w1) !! post2_id = Some post2
       /\ fst (get_post env0 (bob_on_post1 None) w1) =
            inr (mkResponse 404 (BMsg "Post not found")).
Proof.
  assert (H1 : castObjectId (req_params (alice_on_post1 None) params.post_id) =
               Some post1_id) by exact cast_post1.
  split; [exact H1|]. split; [exact w0_post1|]. split; [reflexivity|].
  split; [reflexivity|].
  destruct (delete_post_by_owner env0 env0 (alice_on_post1 None) (bob_on_post1 None)
              w0 post1_id post1 H1 w0_post1 eq_refl eq_refl)
    as (w1 & Hrun & _ & Hother & _ & Hget & _).
  exists w1. split; [exact Hrun|]. split; [|exact Hget].
  rewrite Hother; [exact w0_post2|].
  apply (bool_decide_unpack _). vm_compute. exact I.
Defined.

(** X4: PUT /posts/:id with a text in its body that has passed the
    validation, on a stored post, answers 200 and
    replaces the text of that post by the text of the request; the author,
    name, avatar, likes, comments and date of the post stay, and so does
    every other post.  The same request again leaves the posts as they are.
    On an id that names no post the answer is 404 'Post not found' and the
    database is left as it was. *)
Theorem put_post_sets_text_only (env env' : Env) (req : Request) (w : World)
    (o : ObjectId) :
  castObjectId (req_params req params.post_id) = Some o ->
  validationResult req = [] ->
  (forall p text, Posts (db w) !! o = Some p -> req_body_text req = Some text ->
     exists p' w1,
       put_post env req w = (inr (mkResponse 200 (BPost (o, p'))), w1)
       /\ Posts (db w1) = <[o := p']> (Posts (db w))
       /\ Users (db w1) = Users (db w)
       /\ req_body_text req = Some (post_text p')
       /\ post_user p' = post_user p
       /\ post_name p' = post_name p
       /\ post_avatar p' = post_avatar p
       /\ post_likes p' = post_likes p
       /\ post_comments p' = post_comments p
       /\ post_date p' = post_date p
       /\ db (snd (put_post env' req w1)) = db w1)
  /\ (Posts (db w) !! o = None ->
      exists w1,
        put_post env req w = (inr (mkResponse 404 (BMsg "Post not found")), w1)
        /\ db w1 = db w).
Proof.
  intros Hc Hv. split.
  - intros p text Hp Hb. rewrite (put_post_any_user env req w o p Hc Hp Hv), Hb.
    eexists _, _. split; [reflexivity|]. simpl. split; [reflexivity|].
    split; [reflexivity|]. split; [done|].
    do 6 (split; [done|]).
    rewrite (put_post_any_user env' req _ o (set_post_text text p) Hc);
      [|simpl; apply lookup_insert_eq|done].
    rewrite Hb. simpl. by rewrite insert_insert_eq.
  - intros Hp. rewrite (put_post_missing env req w o Hc Hp Hv). eauto.
Qed.

Lemma put_post_sets_text_only_witness :
  castObjectId (req_params (alice_on_post1 (Some "edited")) params.post_id) = Some post1_id
  /\ validationResult (alice_on_post1 (Some "edited")) = []
  /\ Posts (db w0) !! post1_id = Some post1
  /\ req_body_text (alice_on_post1 (Some "edited")) = Some "edited"
  /\ exists p' w1,
       put_post env0 (alice_on_post1 (Some "edited")) w0 =
         (inr (mkResponse 200 (BPost (post1_id, p'))), w1)
       /\ post_text p' = "edited"
       /\ post_likes p' = [mkLike alice]
       /\ post_comments p' = [comment2; comment1].
Proof.
  assert (H1 : castObjectId (req_params (alice_on_post1 (Some "edited")) params.post_id) =
               Some post1_id) by exact cast_post1.
  split; [exact H1|]. split; [reflexivity|]. split; [exact w0_post1|].
  split; [reflexivity|].
  destruct (put_post_sets_text_only env0 env0 (alice_on_post1 (Some "edited")) w0
              post1_id H1 eq_refl) as (Hfound & _).
  destruct (Hfound post1 "edited" w0_post1 eq_refl)
    as (p' & w1 & Hrun & _ & _ & Ht & _ & _ & _ & Hl & Hcs & _).
  exists p', w1. split; [exact Hrun|].
  split; [simpl in Ht; congruence|]. split; [exact Hl | exact Hcs].
Defined.

(** ** Likes *)

Lemma splice_indexOf_head (u : ObjectId) (likes : list Like) :
  splice (indexOf (toString u)
            ((fun like => toString (like_user like)) <$> (mkLike u :: likes)))
         1 (mkLike u :: likes) = likes.
Proof.
  destruct (indexOf_splice_likes (mkLike u :: likes) u) as (l1 & l2 & Heq & Hn & ->).
  { simpl. apply list_elem_of_here. }
  destruct l1 as [|x l1]; simpl in *.
  - by injection Heq as <-.
  - injection Heq as <- _. exfalso. apply Hn. simpl. apply list_elem_of_here.
Qed.

(** X5: on a stored post that the user has not liked, a like answers 200;
    a second like by the same user is then answered 400 'Post already liked'
    and changes nothing, and an unlike by that user after the like gives
    back the likes, and the whole database, as they were before the like. *)
Theorem put_like_then_unlike (env env1 env2 : Env) (req : Request) (w : World)
    (o : ObjectId) (p : Post) :
  castObjectId (req_params req params.post_id) = Some o ->
  Posts (db w) !! o = Some p ->
  req_user req ∉ like_user <$> post_likes p ->
  exists w1,
    put_like env req w =
      (inr (mkResponse 200 (BLikes (mkLike (req_user req) :: post_likes p))), w1)
    /\ (exists w2,
          put_like env1 req w1 = (inr (mkResponse 400 (BMsg "Post already liked")), w2)
          /\ db w2 = db w1)
    /\ (exists w2,
          put_unlike env2 req w1 = (inr (mkResponse 200 (BLikes (post_likes p))), w2)
          /\ db w2 = db w).
Proof.
  intros Hc Hp Hn.
  rewrite (put_like_found env req w o p Hc Hp). simpl.
  rewrite (proj2 (likedBy_false req p) Hn).
  eexists. split; [reflexivity|].
  set (p1 := set_post_likes (mkLike (req_user req) :: post_likes p) p).
  set (w1 := setPosts _ _).
  assert (Hp1 : Posts (db w1) !! o = Some p1) by (simpl; apply lookup_insert_eq).
  assert (Hliked : likedBy req p1 = true).
  { apply likedBy_true. simpl. apply list_elem_of_here. }
  split.
  - rewrite (put_like_found env1 req w1 o p1 Hc Hp1). simpl. rewrite Hliked. eauto.
  - rewrite (put_unlike_found env2 req w1 o p1 Hc Hp1). cbv zeta.
    rewrite Hliked. cbn [negb].
    change (post_likes p1) with (mkLike (req_user req) :: post_likes p).
    unfold req_user_id. rewrite splice_indexOf_head.
    eexists. split; [reflexivity|].
    replace (set_post_likes (post_likes p) p1) with p by (by destruct p).
    simpl. rewrite insert_insert_eq.
    rewrite insert_id by done. by destruct (db w).
Qed.

Lemma put_like_then_unlike_witness :
  castObjectId (req_params (bob_on_post1 None) params.post_id) = Some post1_id
  /\ Posts (db w0) !! post1_id = Some post1
  /\ (req_user (bob_on_post1 None) ∉ like_user <$> post_likes post1)
  /\ exists w1,
       put_like env0 (bob_on_post1 None) w0 =
         (inr (mkResponse 200 (BLikes [mkLike bob; mkLike alice])), w1)
       /\ exists w2,
            put_unlike env0 (bob_on_post1 None) w1 =
              (inr (mkResponse 200 (BLikes [mkLike alice])), w2)
            /\ db w2 = db w0.
Proof.
  assert (H1 : castObjectId (req_params (bob_on_post1 None) params.post_id) =
               Some post1_id) by exact cast_post1.
  assert (H3 : req_user (bob_on_post1 None) ∉ like_user <$> post_likes post1).
  { apply (bool_decide_unpack _). vm_compute. exact I. }
  split; [exact H1|]. split; [exact w0_post1|]. split; [exact H3|].
  destruct (put_like_then_unlike env0 env0 env0 (bob_on_post1 None) w0 post1_id post1
              H1 w0_post1 H3) as (w1 & Hlike & _ & Hunlike).
  exists w1. split; [exact Hlike | exact Hunlike].
Defined.

(** X6: where the like users of the post are pairwise distinct, a
    successful unlike leaves no like of the user, so that a second unlike by
    that user is answered 400 'Post has not yet been liked' and changes
    nothing. *)
Theorem put_unlike_twice (env env1 : Env) (req : Request) (w : World)
    (o : ObjectId) (p : Post) :
  castObjectId (req_params req params.post_id) = Some o ->
  Posts (db w) !! o = Some p ->
  NoDup (like_user <$> post_likes p) ->
  req_user req ∈ like_user <$> post_likes p ->
  exists likes w1 w2,
    put_unlike env req w = (inr (mkResponse 200 (BLikes likes)), w1)
    /\ (req_user req ∉ like_user <$> likes)
    /\ put_unlike env1 req w1 =
         (inr (mkResponse 400 (BMsg "Post has not yet been liked")), w2)
    /\ db w2 = db w1.
Proof.
  intros Hc Hp Hnd Hin.
  rewrite (put_unlike_found env req w o p Hc Hp). simpl.
  rewrite (proj2 (likedBy_true req p) Hin). simpl.
  destruct (indexOf_splice_likes _ _ Hin) as (l1 & l2 & Heq & Hn1 & Hs).
  unfold req_user_id. rewrite Hs.
  assert (Hn : req_user req ∉ like_user <$> (l1 ++ l2)).
  { rewrite Heq, fmap_app in Hnd. simpl in Hnd.
    apply NoDup_app in Hnd as (_ & Hdisj & Hnd2).
    apply NoDup_cons in Hnd2 as [Hn2 _].
    rewrite fmap_app, elem_of_app. by intros [?|?]. }
  eexists _, _, _. split; [reflexivity|]. split; [exact Hn|].
  set (p1 := set_post_likes (l1 ++ l2) p).
  set (w1 := setPosts _ _).
  assert (Hp1 : Posts (db w1) !! o = Some p1) by (simpl; apply lookup_insert_eq).
  rewrite (put_unlike_found env1 req w1 o p1 Hc Hp1). simpl.
  rewrite (proj2 (likedBy_false req p1)) by exact Hn. done.
Qed.

Lemma put_unlike_twice_witness :
  castObjectId (req_params (alice_on_post1 None) params.post_id) = Some post1_id
  /\ Posts (db w0) !! post1_id = Some post1
  /\ NoDup (like_user <$> post_likes post1)
  /\ req_user (alice_on_post1 None) ∈ like_user <$> post_likes post1
  /\ exists likes w1 w2,
       put_unlike env0 (alice_on_post1 None) w0 = (inr (mkResponse 200 (BLikes likes)), w1)
       /\ put_unlike env0 (alice_on_post1 None) w1 =
            (inr (mkResponse 400 (BMsg "Post has not yet been liked")), w2).
Proof.
  assert (H1 : castObjectId (req_params (alice_on_post1 None) params.post_id) =
               Some post1_id) by exact cast_post1.
  assert (H3 : NoDup (like_user <$> post_likes post1)).
  { apply (bool_decide_unpack _). vm_compute. exact I. }
  assert (H4 : req_user (alice_on_post1 None) ∈ like_user <$> post_likes post1).
  { apply (bool_decide_unpack _). vm_compute. exact I. }
  split; [exact H1|]. split; [exact w0_post1|]. split; [exact H3|]. split; [exact H4|].
  destruct (put_unlike_twice env0 env0 (alice_on_post1 None) w0 post1_id post1
              H1 w0_post1 H3 H4) as (likes & w1 & w2 & Hu1 & _ & Hu2 & _).
  exists likes, w1, w2. split; [exact Hu1 | exact Hu2].
Defined.

(** ** Comments *)

Lemma filter_all {A} (P : A -> Prop) `{!forall x, Decision (P x)} (l : list A) :
  Forall P l -> filter P l = l.
Proof.
  induction 1 as [|x l Hx _ IH]; [done|].
  rewrite filter_cons_True by done. by rewrite IH.
Qed.

Lemma comment_id_inj c c' : comment_id c = comment_id c' <-> comment__id c = comment__id c'.
Proof. unfold comment_id. apply toString_inj. Qed.

Lemma findComment_None req p :
  findComment req p = None <->
  forall c, c ∈ post_comments p -> comment_id c <> req_params req params.comment_id.
Proof. unfold findComment. by rewrite list_find_None, Forall_forall. Qed.

Lemma put_comment_missing_comment env req w o p :
  castObjectId (req_params req params.post_id) = Some o ->
  Posts (db w) !! o = Some p ->
  isValid (req_params req params.comment_id) = true ->
  findComment req p = None ->
  validationResult req = [] ->
  put_comment env req w =
    (inr (mkResponse 404 (BMsg "Comment does not exist")),
     logCall (Call_Post_findById (req_params req params.post_id)) w).
Proof.
  intros Hc Hp Hv Hf He. unfold put_comment. simpl.
  rewrite checkObjectId_valid by (by eapply isValid_cast).
  rewrite checkObjectId_valid by done.
  unfold put_comment_handler. rewrite He. run_handler.
  rewrite Hc. simpl. rewrite Hp. simpl. by rewrite Hf.
Qed.

(** X7: POST /posts/comment/:id with a text in its body that has passed the
    validation, by a user of the database, on a stored post answers 200 with the comments of the post, a new comment
    in front of the former ones; the new comment has the generated id, the
    requester as user, the text of the request, the name and the avatar of
    the user's record and the current date.  The likes of the post stay. *)
Theorem post_comment_adds_in_front (env : Env) (req : Request) (w : World)
    (u : User) (o : ObjectId) (p : Post) (text : string) :
  validationResult req = [] ->
  req_body_text req = Some text ->
  Users (db w) !! req_user req = Some u ->
  castObjectId (req_params req params.post_id) = Some o ->
  Posts (db w) !! o = Some p ->
  exists c p1 w1,
    post_comment env req w =
      (inr (mkResponse 200 (BComments (c :: post_comments p))), w1)
    /\ Posts (db w1) = <[o := p1]> (Posts (db w))
    /\ post_comments p1 = c :: post_comments p
    /\ post_likes p1 = post_likes p
    /\ comment__id c = env_newId env
    /\ comment_user c = req_user req
    /\ req_body_text req = Some (comment_text c)
    /\ comment_name c = user_name u
    /\ comment_avatar c = user_avatar u
    /\ comment_date c = env_now env.
Proof.
  intros Hv Hb Hu Hc Hp.
  rewrite (post_comment_found env req w u o p text Hv Hb Hu Hc Hp). simpl.
  eexists _, _, _. split; [reflexivity|]. split; [reflexivity|]. simpl.
  do 4 (split; [done|]). split; [|done].
  unfold req_text. by rewrite Hb.
Qed.

Lemma post_comment_adds_in_front_witness :
  validationResult (bob_on_post1 (Some "third")) = []
  /\ req_body_text (bob_on_post1 (Some "third")) = Some "third"
  /\ Users (db w0) !! req_user (bob_on_post1 (Some "third")) = Some (mkUser "Bob" "bob.png")
  /\ castObjectId (req_params (bob_on_post1 (Some "third")) params.post_id) = Some post1_id
  /\ Posts (db w0) !! post1_id = Some post1
  /\ exists c w1,
       post_comment env0 (bob_on_post1 (Some "third")) w0 =
         (inr (mkResponse 200 (BComments [c; comment2; comment1])), w1)
       /\ comment__id c = fresh_id
       /\ comment_user c = bob
       /\ comment_text c = "third"
       /\ comment_name c = "Bob".
Proof.
  split; [reflexivity|]. split; [reflexivity|]. split; [exact w0_bob|].
  split; [exact cast_post1|]. split; [exact w0_post1|].
  destruct (post_comment_adds_in_front env0 (bob_on_post1 (Some "third")) w0
              (mkUser "Bob" "bob.png") post1_id post1 "third"
              eq_refl eq_refl w0_bob cast_post1 w0_post1)
    as (c & p1 & w1 & Hrun & _ & _ & _ & Hid & Hu & Ht & Hn & _).
  exists c, w1. split; [exact Hrun|]. split; [exact Hid|]. split; [exact Hu|].
  split; [simpl in Ht; congruence | exact Hn].
Defined.

(** X8: when the generated id is the id of no comment of the post, the
    user who added a comment (with a text in the body of the request that has
    passed the validation) can take it away again: DELETE
    /posts/comment/:id/:cid with the id of the new comment answers 200 with
    the comments as they were before, and the database is as it was before
    the comment was added. *)
Theorem post_comment_then_delete_comment (env env1 : Env) (req req' : Request)
    (w : World) (u : User) (o : ObjectId) (p : Post) (text : string) :
  validationResult req = [] ->
  req_body_text req = Some text ->
  Users (db w) !! req_user req = Some u ->
  castObjectId (req_params req params.post_id) = Some o ->
  Posts (db w) !! o = Some p ->
  env_newId env ∉ comment__id <$> post_comments p ->
  req_user req' = req_user req ->
  req_params req' params.post_id = req_params req params.post_id ->
  req_params req' params.comment_id = toString (env_newId env) ->
  exists c w1 w2,
    post_comment env req w =
      (inr (mkResponse 200 (BComments (c :: post_comments p))), w1)
    /\ delete_comment env1 req' w1 =
         (inr (mkResponse 200 (BComments (post_comments p))), w2)
    /\ db w2 = db w.
Proof.
  intros Hv Hb Hu Hc Hp Hfresh Hru Hpid Hcid.
  rewrite (post_comment_found env req w u o p text Hv Hb Hu Hc Hp). cbv zeta.
  set (c := mkComment _ _ _ _ _ _).
  set (p1 := set_post_comments (c :: post_comments p) p).
  set (w1 := setPosts _ _).
  exists c, w1. 
  assert (Hp1 : Posts (db w1) !! o = Some p1) by (simpl; apply lookup_insert_eq).
  assert (Hc' : castObjectId (req_params req' params.post_id) = Some o) by by rewrite Hpid.
  assert (Hf : findComment req' p1 = Some (0%nat, c)).
  { apply findComment_Some. split; [done|]. split; [by rewrite Hcid|].
    intros j c' _ Hj. lia. }
  assert (Hfilter :
    filter (fun c' => comment_id c' <> req_params req' params.comment_id)
           (post_comments p1) = post_comments p).
  { change (post_comments p1) with (c :: post_comments p).
    rewrite filter_cons_False by (intros Hne; apply Hne; by rewrite Hcid).
    apply filter_all, Forall_forall. intros c' Hin Heq.
    apply Hfresh. apply list_elem_of_fmap. exists c'. split; [|done].
    symmetry. apply toString_inj. by rewrite <- Hcid, <- Heq. }
  rewrite (delete_comment_found env1 req' w1 o p1 0%nat c Hc' Hp1 Hf). cbv zeta.
  rewrite (owner_test (comment_user c) req') by (by rewrite Hru).
  rewrite Hfilter.
  eexists. split; [reflexivity|]. split; [reflexivity|].
  replace (set_post_comments (post_comments p) p1) with p by (by destruct p).
  simpl. rewrite insert_insert_eq.
  rewrite insert_id by done. by destruct (db w).
Qed.

Lemma post_comment_then_delete_comment_witness :
  validationResult (bob_on_post1 (Some "third")) = []
  /\ req_body_text (bob_on_post1 (Some "third")) = Some "third"
  /\ Users (db w0) !! req_user (bob_on_post1 (Some "third")) = Some (mkUser "Bob" "bob.png")
  /\ castObjectId (req_params (bob_on_post1 (Some "third")) params.post_id) = Some post1_id
  /\ Posts (db w0) !! post1_id = Some post1
  /\ (env_newId env0 ∉ comment__id <$> post_comments post1)
  /\ exists c w1 w2,
       post_comment env0 (bob_on_post1 (Some "third")) w0 =
         (inr (mkResponse 200 (BComments [c; comment2; comment1])), w1)
       /\ delete_comment env0
            (mkRequest bob (mkParams (toString post1_id) (toString fresh_id)) None) w1 =
            (inr (mkResponse 200 (BComments [comment2; comment1])), w2)
       /\ db w2 = db w0.
Proof.
  assert (Hfresh : env_newId env0 ∉ comment__id <$> post_comments post1).
  { apply (bool_decide_unpack _). vm_compute. exact I. }
  split; [reflexivity|]. split; [reflexivity|]. split; [exact w0_bob|].
  split; [exact cast_post1|]. split; [exact w0_post1|]. split; [exact Hfresh|].
  exact (post_comment_then_delete_comment env0 env0 (bob_on_post1 (Some "third"))
           (mkRequest bob (mkParams (toString post1_id) (toString fresh_id)) None)
           w0 (mkUser "Bob" "bob.png") post1_id post1 "third"
           eq_refl eq_refl w0_bob cast_post1 w0_post1 Hfresh eq_refl eq_refl eq_refl).
Defined.

Lemma filter_other_ids (param : string) (i : nat) (c : Comment) (l : list Comment) :
  NoDup (comment__id <$> l) ->
  l !! i = Some c ->
  comment_id c = param ->
  filter (fun c' => comment_id c' <> param) l = delete i l.
Proof.
  intros Hnd Hi Hid.
  rewrite <- (take_drop_middle l i c Hi) in Hnd |- * at 1.
  rewrite fmap_app in Hnd. simpl in Hnd.
  apply NoDup_app in Hnd as (_ & Hl1 & Hnd2).
  apply NoDup_cons in Hnd2 as [Hl2 _].
  rewrite filter_app, filter_cons_False by (intros Hne; by apply Hne).
  rewrite delete_take_drop.
  f_equal; apply filter_all, Forall_forall; intros c' Hin Heq.
  - apply (Hl1 (comment__id c')); [by apply list_elem_of_fmap_2|].
    assert (comment__id c' = comment__id c) as -> by (apply comment_id_inj; congruence).
    apply list_elem_of_here.
  - apply Hl2.
    assert (comment__id c = comment__id c') as -> by (apply comment_id_inj; congruence).
    by apply list_elem_of_fmap_2.
Qed.

(** X9: when the owner of a comment sends DELETE /posts/comment/:id/:cid,
    the answer is 200 with the comments that are left: those of the post
    whose id is not the id of the request, in their order; the likes of the
    post stay.  Where the ids of the comments are pairwise distinct this
    removes the one comment found.  The same request again is answered 404
    'Comment does not exist'. *)
Theorem delete_comment_by_owner (env env1 : Env) (req : Request) (w : World)
    (o : ObjectId) (p : Post) (i : nat) (c : Comment) :
  castObjectId (req_params req params.post_id) = Some o ->
  Posts (db w) !! o = Some p ->
  findComment req p = Some (i, c) ->
  comment_user c = req_user req ->
  exists comments p1 w1,
    delete_comment env req w = (inr (mkResponse 200 (BComments comments)), w1)
    /\ Posts (db w1) = <[o := p1]> (Posts (db w))
    /\ post_comments p1 = comments
    /\ post_likes p1 = post_likes p
    /\ comments `sublist_of` post_comments p
    /\ (forall c', c' ∈ comments <->
          c' ∈ post_comments p /\ comment_id c' <> req_params req params.comment_id)
    /\ (NoDup (comment__id <$> post_comments p) -> comments = delete i (post_comments p))
    /\ fst (delete_comment env1 req w1) =
         inr (mkResponse 404 (BMsg "Comment does not exist")).
Proof.
  intros Hc Hp Hf Ho.
  rewrite (delete_comment_found env req w o p i c Hc Hp Hf). cbv zeta.
  rewrite (owner_test (comment_user c) req Ho).
  set (comments := filter _ _).
  set (p1 := set_post_comments comments p).
  set (w1 := setPosts _ _).
  exists comments, p1, w1.
  split; [reflexivity|]. split; [reflexivity|]. split; [reflexivity|].
  split; [reflexivity|]. split; [apply sublist_filter|].
  split; [intros c'; unfold comments; rewrite list_elem_of_filter; tauto|].
  apply findComment_Some in Hf as Hf'. destruct Hf' as (Hi & Hid & _).
  split; [intros Hnd; by apply (filter_other_ids _ i c)|].
  assert (Hp1 : Posts (db w1) !! o = Some p1) by (simpl; apply lookup_insert_eq).
  rewrite (delete_comment_missing_comment env1 req w1 o p1 Hc Hp1); [done| |].
  - rewrite <- Hid. apply isValid_toString.
  - intros c'. change (post_comments p1) with comments. unfold comments.
    rewrite list_elem_of_filter. tauto.
Qed.

Lemma delete_comment_by_owner_witness :
  castObjectId (req_params (alice_on_post1 None) params.post_id) = Some post1_id
  /\ Posts (db w0) !! post1_id = Some post1
  /\ findComment (alice_on_post1 None) post1 = Some (1%nat, comment1)
  /\ comment_user comment1 = req_user (alice_on_post1 None)
  /\ NoDup (comment__id <$> post_comments post1)
  /\ exists w1,
       delete_comment env0 (alice_on_post1 None) w0 =
         (inr (mkResponse 200 (BComments [comment2])), w1)
       /\ fst (delete_comment env0 (alice_on_post1 None) w1) =
            inr (mkResponse 404 (BMsg "Comment does not exist")).
Proof.
  assert (Hf : findComment (alice_on_post1 None) post1 = Some (1%nat, comment1))
    by (vm_compute; reflexivity).
  assert (Hnd : NoDup (comment__id <$> post_comments post1)).
  { apply (bool_decide_unpack _). vm_compute. exact I. }
  split; [exact cast_post1|]. split; [exact w0_post1|]. split; [exact Hf|].
  split; [reflexivity|]. split; [exact Hnd|].
  destruct (delete_comment_by_owner env0 env0 (alice_on_post1 None) w0 post1_id post1
              1%nat comment1 cast_post1 w0_post1 Hf eq_refl)
    as (comments & p1 & w1 & Hrun & _ & _ & _ & _ & _ & Hdel & Hagain).
  exists w1. split; [|exact Hagain].
  rewrite Hrun. by rewrite (Hdel Hnd).
Defined.

(** X10: after the owner of a comment has edited it with PUT
    /posts/comment/:id/:cid (with a text in the body of the request that has
    passed the validation), the id of the request still finds a comment at
    the same place in the stored post, and it has the text of the request;
    the same request again leaves the database as it is. *)
Theorem put_comment_by_owner (env env1 : Env) (req : Request) (w : World)
    (o : ObjectId) (p : Post) (i : nat) (c : Comment) (text : string) :
  castObjectId (req_params req params.post_id) = Some o ->
  Posts (db w) !! o = Some p ->
  findComment req p = Some (i, c) ->
  comment_user c = req_user req ->
  validationResult req = [] ->
  req_body_text req = Some text ->
  exists c1 p1 w1,
    put_comment env req w = (inr (mkResponse 200 (BComments (post_comments p1))), w1)
    /\ Posts (db w1) !! o = Some p1
    /\ findComment req p1 = Some (i, c1)
    /\ req_body_text req = Some (comment_text c1)
    /\ db (snd (put_comment env1 req w1)) = db w1.
Proof.
  intros Hc Hp Hf Ho Hv Hb.
  rewrite (put_comment_found env req w o p i c Hc Hp Hf Hv), Hb. cbv zeta.
  rewrite (owner_test (comment_user c) req Ho).
  set (c1 := set_comment_text (req_text req) c).
  set (p1 := set_post_comments (<[i := c1]> (post_comments p)) p).
  set (w1 := setPosts _ _).
  exists c1, p1, w1.
  assert (Hp1 : Posts (db w1) !! o = Some p1) by (simpl; apply lookup_insert_eq).
  apply findComment_Some in Hf as Hf'. destruct Hf' as (Hi & Hid & Hmin).
  pose proof (lookup_lt_Some _ _ _ Hi) as Hlt.
  assert (Hf1 : findComment req p1 = Some (i, c1)).
  { apply findComment_Some. change (post_comments p1) with (<[i := c1]> (post_comments p)).
    split; [by apply list_lookup_insert_eq|]. split; [exact Hid|].
    intros j c' Hj Hji. rewrite list_lookup_insert_ne in Hj by lia. by eapply Hmin. }
  split; [reflexivity|]. split; [exact Hp1|]. split; [exact Hf1|]. split.
  { simpl. unfold req_text. by rewrite Hb. }
  rewrite (put_comment_found env1 req w1 o p1 i c1 Hc Hp1 Hf1 Hv), Hb. cbv zeta.
  rewrite (owner_test (comment_user c1) req) by exact Ho.
  change (post_comments p1) with (<[i := c1]> (post_comments p)).
  replace (set_comment_text (req_text req) c1) with c1 by (by destruct c).
  rewrite list_insert_insert_eq.
  replace (set_post_comments (<[i := c1]> (post_comments p)) p1) with p1 by (by destruct p).
  simpl. by rewrite insert_insert_eq.
Qed.

Lemma put_comment_by_owner_witness :
  castObjectId (req_params (alice_on_post1 (Some "edited")) params.post_id) = Some post1_id
  /\ Posts (db w0) !! post1_id = Some post1
  /\ findComment (alice_on_post1 (Some "edited")) post1 = Some (1%nat, comment1)
  /\ comment_user comment1 = req_user (alice_on_post1 (Some "edited"))
  /\ validationResult (alice_on_post1 (Some "edited")) = []
  /\ req_body_text (alice_on_post1 (Some "edited")) = Some "edited"
  /\ exists c1 p1 w1,
       fst (put_comment env0 (alice_on_post1 (Some "edited")) w0) =
         inr (mkResponse 200 (BComments (post_comments p1)))
       /\ Posts (db w1) !! post1_id = Some p1
       /\ findComment (alice_on_post1 (Some "edited")) p1 = Some (1%nat, c1)
       /\ comment_text c1 = "edited".
Proof.
  assert (Hf : findComment (alice_on_post1 (Some "edited")) post1 = Some (1%nat, comment1))
    by (vm_compute; reflexivity).
  split; [exact cast_post1|]. split; [exact w0_post1|]. split; [exact Hf|].
  split; [reflexivity|]. split; [reflexivity|]. split; [reflexivity|].
  destruct (put_comment_by_owner env0 env0 (alice_on_post1 (Some "edited")) w0 post1_id
              post1 1%nat comment1 "edited" cast_post1 w0_post1 Hf eq_refl eq_refl eq_refl)
    as (c1 & p1 & w1 & Hrun & Hp1 & Hf1 & Ht & _).
  exists c1, p1, w1. split; [by rewrite Hrun|]. split; [exact Hp1|].
  split; [exact Hf1|]. simpl in Ht. congruence.
Defined.

(** X11: on a stored post, a well-formed comment id that is the id of none
    of its comments is answered 404 'Comment does not exist' by DELETE
    /posts/comment/:id/:cid, and by PUT /posts/comment/:id/:cid when the
    validation of the text has passed; the database is left as it was. *)
Theorem comment_not_found_404 (env : Env) (req : Request) (w : World)
    (o : ObjectId) (p : Post) :
  castObjectId (req_params req params.post_id) = Some o ->
  Posts (db w) !! o = Some p ->
  isValid (req_params req params.comment_id) = true ->
  (forall c, c ∈ post_comments p -> comment_id c <> req_params req params.comment_id) ->
  (exists w1,
     delete_comment env req w =
       (inr (mkResponse 404 (BMsg "Comment does not exist")), w1)
     /\ db w1 = db w)
  /\ (validationResult req = [] ->
      exists w1,
        put_comment env req w =
          (inr (mkResponse 404 (BMsg "Comment does not exist")), w1)
        /\ db w1 = db w).
Proof.
  intros Hc Hp Hv Hno. split.
  - rewrite (delete_comment_missing_comment env req w o p Hc Hp Hv Hno). eauto.
  - intros He.
    rewrite (put_comment_missing_comment env req w o p Hc Hp Hv
               (proj2 (findComment_None req p) Hno) He).
    eauto.
Qed.

Lemma comment_not_found_404_witness :
  castObjectId (req_params (mkRequest bob (mkParams (toString post1_id) missing_id)
                              (Some "x")) params.post_id) = Some post1_id
  /\ Posts (db w0) !! post1_id = Some post1
  /\ isValid (req_params (mkRequest bob (mkParams (toString post1_id) missing_id)
                            (Some "x")) params.comment_id) = true
  /\ (forall c, c ∈ post_comments post1 -> comment_id c <> missing_id)
  /\ fst (delete_comment env0
            (mkRequest bob (mkParams (toString post1_id) missing_id) (Some "x")) w0) =
       inr (mkResponse 404 (BMsg "Comment does not exist"))
  /\ fst (put_comment env0
            (mkRequest bob (mkParams (toString post1_id) missing_id) (Some "x")) w0) =
       inr (mkResponse 404 (BMsg "Comment does not exist")).
Proof.
  assert (Hv : isValid missing_id = true) by (vm_compute; reflexivity).
  assert (Hno : forall c, c ∈ post_comments post1 -> comment_id c <> missing_id).
  { apply Forall_forall. apply (bool_decide_unpack _). vm_compute. exact I. }
  split; [exact cast_post1|]. split; [exact w0_post1|]. split; [exact Hv|].
  split; [exact Hno|].
  destruct (comment_not_found_404 env0
              (mkRequest bob (mkParams (toString post1_id) missing_id) (Some "x")) w0
              post1_id post1 cast_post1 w0_post1 Hv Hno) as ((w1 & Hd & _) & Hput).
  destruct (Hput eq_refl) as (w2 & Hp & _).
  split; [by rewrite Hd | by rewrite Hp].
Defined.

(** ** What the router as a whole keeps *)

Ltac run_route r :=
  destruct r; simpl; unfold_routes; repeat case_match; simplify_eq; simpl in *;
  found_post.

Lemma not_GET (r : Route) : r <> GET_root -> r <> GET_post -> r ∉ [GET_root; GET_post].
Proof.
  intros H1 H2 Hin.
  repeat (apply elem_of_cons in Hin as [Hin|Hin]; [done|]).
  by apply elem_of_nil in Hin.
Qed.

(** What a request does to the database: nothing, or, with the answer 200
    of a route that is not a GET, one post written or one post removed. *)
Lemma router_effect_of (r : Route) (env : Env) (req : Request) (w w' : World)
    (out : Exn + Response) :
  router r env req w = (out, w') ->
  Users (db w') = Users (db w)
  /\ (Posts (db w') = Posts (db w)
      \/ exists res o,
           out = inr res
           /\ status res = 200%nat
           /\ (r ∉ [GET_root; GET_post])
           /\ (r = POST_root -> o = env_newId env)
           /\ (r <> POST_root -> castObjectId (req_params req params.post_id) = Some o)
           /\ ((exists p', Posts (db w') = <[o := p']> (Posts (db w)))
               \/ Posts (db w') = delete o (Posts (db w)))).
Proof.
  destruct r; simpl; unfold_routes; repeat case_match; simplify_eq; simpl in *;
    found_post; intros Heq; injection Heq as <- <-; simpl;
    (split; [reflexivity|]); try (by left).
  all: right; eexists _, _; split; [reflexivity|]; split; [reflexivity|].
  all: split; [by apply not_GET|].
  all: split; [intros Hr; first [discriminate Hr | reflexivity]|].
  all: split; [intros Hr; first [by destruct Hr | reflexivity]|].
  all: first [ by right | left; by eexists ].
Qed.

Lemma router_effect (r : Route) (env : Env) (req : Request) (w : World) :
  Users (db (snd (router r env req w))) = Users (db w)
  /\ (Posts (db (snd (router r env req w))) = Posts (db w)
      \/ exists res o,
           fst (router r env req w) = inr res
           /\ status res = 200%nat
           /\ (r ∉ [GET_root; GET_post])
           /\ (r = POST_root -> o = env_newId env)
           /\ (r <> POST_root -> castObjectId (req_params req params.post_id) = Some o)
           /\ ((exists p', Posts (db (snd (router r env req w))) = <[o := p']> (Posts (db w)))
               \/ Posts (db (snd (router r env req w))) = delete o (Posts (db w)))).
Proof. apply (router_effect_of r env req w). apply surjective_pairing. Qed.

(** X12: no route writes to the users: the collection of users is the same
    after every request. *)
Theorem router_keeps_users (r : Route) (env : Env) (req : Request) (w : World) :
  Users (db (snd (router r env req w))) = Users (db w).
Proof. apply router_effect. Qed.

(** X13: the database is changed only by a request that is answered 200 by
    a route other than the two GET routes: a request that is refused, that
    fails, or that only reads leaves the database as it was. *)
Theorem router_writes_only_on_200 (r : Route) (env : Env) (req : Request) (w : World) :
  db (snd (router r env req w)) <> db w ->
  (r ∉ [GET_root; GET_post])
  /\ exists res, fst (router r env req w) = inr res /\ status res = 200%nat.
Proof.
  intros Hne.
  destruct (router_effect r env req w) as (Hu & [Hsame | (res & o & Hres & Hst & Hr & _)]).
  - exfalso. apply Hne.
    destruct (db (snd (router r env req w))), (db w). simpl in *. congruence.
  - split; [exact Hr|]. by exists res.
Qed.

Lemma router_writes_only_on_200_witness :
  db (snd (router PUT_like env0 (bob_on_post1 None) w0)) <> db w0
  /\ (PUT_like ∉ [GET_root; GET_post])
  /\ exists res,
       fst (router PUT_like env0 (bob_on_post1 None) w0) = inr res
       /\ status res = 200%nat.
Proof.
  assert (Hne : db (snd (router PUT_like env0 (bob_on_post1 None) w0)) <> db w0).
  { intros Heq.
    assert (Hl : post_likes <$> Posts (db (snd (router PUT_like env0 (bob_on_post1 None) w0)))
                   !! post1_id = Some [mkLike bob; mkLike alice]).
    { simpl router.
      rewrite (put_like_found env0 (bob_on_post1 None) w0 post1_id post1
                 cast_post1 w0_post1).
      simpl. by rewrite lookup_insert_eq. }
    rewrite Heq, w0_post1 in Hl. discriminate Hl. }
  split; [exact Hne|].
  exact (router_writes_only_on_200 PUT_like env0 (bob_on_post1 None) w0 Hne).
Defined.

(** X14: a request touches no post but its own: every post stored under an
    id other than the id of the request (for POST /posts, other than the
    generated id) is the same after the request. *)
Theorem router_keeps_other_posts (r : Route) (env : Env) (req : Request)
    (w : World) (o' : ObjectId) :
  (r = POST_root -> o' <> env_newId env) ->
  (r <> POST_root -> castObjectId (req_params req params.post_id) <> Some o') ->
  Posts (db (snd (router r env req w))) !! o' = Posts (db w) !! o'.
Proof.
  intros Hnew Hid.
  destruct (router_effect r env req w)
    as (_ & [-> | (res & o & _ & _ & _ & Ho1 & Ho2 & Hw)]); [done|].
  assert (Hne : o <> o').
  { intros <-.
    assert (r = POST_root \/ r <> POST_root) as [Hr|Hr]
      by (destruct r; first [by left | by right]).
    - by apply (Hnew Hr), Ho1.
    - by apply (Hid Hr), Ho2. }
  destruct Hw as [[p' ->] | ->].
  - by apply lookup_insert_ne.
  - by apply lookup_delete_ne.
Qed.

Lemma router_keeps_other_posts_witness :
  (DELETE_post = POST_root -> post2_id <> env_newId env0)
  /\ (DELETE_post <> POST_root ->
      castObjectId (req_params (alice_on_post1 None) params.post_id) <> Some post2_id)
  /\ Posts (db (snd (router DELETE_post env0 (alice_on_post1 None) w0))) !! post2_id =
       Some post2.
Proof.
  assert (H1 : DELETE_post = POST_root -> post2_id <> env_newId env0) by discriminate.
  assert (H2 : DELETE_post <> POST_root ->
               castObjectId (req_params (alice_on_post1 None) params.post_id) <>
                 Some post2_id).
  { intros _. change (castObjectId (toString post1_id) <> Some post2_id).
    rewrite cast_post1. apply (bool_decide_unpack _). vm_compute. exact I. }
  split; [exact H1|]. split; [exact H2|].
  rewrite (router_keeps_other_posts DELETE_post env0 (alice_on_post1 None) w0 post2_id H1 H2).
  exact w0_post2.
Defined.

Lemma commentsUnique_insert w o p' :
  commentsUnique (db w) ->
  NoDup (comment__id <$> post_comments p') ->
  commentsUnique (db (setPosts (insert o p') w)).
Proof.
  intros Hinv Hp' o' q. simpl.
  destruct (decide (o = o')) as [->|Hne].
  - rewrite lookup_insert_eq. by intros [= <-].
  - rewrite lookup_insert_ne by done. apply Hinv.
Qed.

Lemma commentsUnique_delete w o :
  commentsUnique (db w) -> commentsUnique (db (setPosts (delete o) w)).
Proof.
  intros Hinv o' q. simpl. intros Hq.
  apply lookup_delete_Some in Hq as [_ Hq]. by eapply Hinv.
Qed.

(** X15: every route keeps the ids of the comments of every stored post
    pairwise distinct, as long as the id generated for a new comment is the
    id of no comment of the post it is added to. *)
Theorem router_commentsUnique (r : Route) (env : Env) (req : Request) (w : World) :
  commentsUnique (db w) ->
  (r = POST_comment ->
   forall o p, castObjectId (req_params req params.post_id) = Some o ->
               Posts (db w) !! o = Some p ->
               env_newId env ∉ comment__id <$> post_comments p) ->
  commentsUnique (db (snd (router r env req w))).
Proof.
  intros Hinv Hfresh. revert Hfresh.
  run_route r; intros Hfresh; try done.
  all: try (apply commentsUnique_delete; simpl; done).
  all: apply commentsUnique_insert; simpl; [done|].
  all: try apply NoDup_nil_2.
  all: try (by eapply Hinv).
  - (* a new comment *)
    apply NoDup_cons. split; [by eapply Hfresh | by eapply Hinv].
  - (* a comment removed *)
    match goal with
    | Hx : Posts (db w) !! _ = Some ?x |- _ =>
        apply (sublist_NoDup _ (comment__id <$> post_comments x));
          [by eapply Hinv | apply fmap_sublist, sublist_filter]
    end.
  - (* a comment edited *)
    rewrite list_fmap_insert. simpl.
    match goal with
    | Hf : findComment _ ?x = Some (?i, ?c) |- _ =>
        apply findComment_Some in Hf as (Hi & _ & _);
        rewrite (list_insert_id (comment__id <$> post_comments x) i (comment__id c))
          by (by rewrite list_lookup_fmap, Hi)
    end.
    by eapply Hinv.
Qed.

Lemma router_commentsUnique_witness :
  commentsUnique (db w0)
  /\ (POST_comment = POST_comment ->
      forall o p, castObjectId (req_params (bob_on_post1 (Some "third")) params.post_id) = Some o ->
                  Posts (db w0) !! o = Some p ->
                  env_newId env0 ∉ comment__id <$> post_comments p)
  /\ commentsUnique (db (snd (router POST_comment env0 (bob_on_post1 (Some "third")) w0))).
Proof.
  assert (Hinv : commentsUnique (db w0)).
  { intros o p Hp.
    assert (Hall : map_Forall (fun _ q => NoDup (comment__id <$> post_comments q))
                              (Posts (db w0))).
    { apply (bool_decide_unpack _). vm_compute. exact I. }
    exact (Hall o p Hp). }
  assert (Hfresh : POST_comment = POST_comment ->
      forall o p, castObjectId (req_params (bob_on_post1 (Some "third")) params.post_id) = Some o ->
                  Posts (db w0) !! o = Some p ->
                  env_newId env0 ∉ comment__id <$> post_comments p).
  { intros _ o p Ho Hp.
    change (castObjectId (toString post1_id) = Some o) in Ho.
    rewrite cast_post1 in Ho. injection Ho as <-.
    rewrite w0_post1 in Hp. injection Hp as <-.
    apply (bool_decide_unpack _). vm_compute. exact I. }
  split; [exact Hinv|]. split; [exact Hfresh|].
  exact (router_commentsUnique POST_comment env0 (bob_on_post1 (Some "third")) w0 Hinv Hfresh).
Defined.

(** ** Answers that are never given, and ids that are refused *)

(** X16: with a well-formed post id and a comment id that is not a
    well-formed object id, DELETE and PUT /posts/comment/:id/:cid answer 400
    'Invalid ID', whatever the text, and the database is neither changed nor
    called. *)
Theorem checkObjectId_guards_comment_id (env : Env) (req : Request) (w : World) :
  isValid (req_params req params.post_id) = true ->
  isValid (req_params req params.comment_id) = false ->
  delete_comment env req w = (inr (mkResponse 400 (BMsg "Invalid ID")), w)
  /\ put_comment env req w = (inr (mkResponse 400 (BMsg "Invalid ID")), w).
Proof.
  intros Hp Hc. unfold delete_comment, put_comment. simpl.
  rewrite (checkObjectId_valid params.post_id req Hp).
  by rewrite (checkObjectId_invalid params.comment_id req Hc).
Qed.

Lemma checkObjectId_guards_comment_id_witness :
  isValid (req_params (mkRequest bob (mkParams (toString post1_id) malformed_id) None)
             params.post_id) = true
  /\ isValid (req_params (mkRequest bob (mkParams (toString post1_id) malformed_id) None)
                params.comment_id) = false
  /\ put_comment env0 (mkRequest bob (mkParams (toString post1_id) malformed_id) None) w0 =
       (inr (mkResponse 400 (BMsg "Invalid ID")), w0).
Proof.
  assert (H1 : isValid (toString post1_id) = true) by apply isValid_toString.
  assert (H2 : isValid malformed_id = false) by reflexivity.
  split; [exact H1|]. split; [exact H2|].
  exact (proj2 (checkObjectId_guards_comment_id env0
                  (mkRequest bob (mkParams (toString post1_id) malformed_id) None) w0
                  H1 H2)).
Defined.

(** X17: the answer 404 'Post does not exist' that the handlers of DELETE
    and PUT /posts/comment/:id/:cid contain is never given; a PUT with a
    text that passes the validation and well-formed ids on a post that is
    not stored is answered 500
    'Server Error', and the database is left as it was. *)
Theorem post_does_not_exist_never_answered (env : Env) (req : Request) (w : World) :
  fst (delete_comment env req w) <> inr (mkResponse 404 (BMsg "Post does not exist"))
  /\ fst (put_comment env req w) <> inr (mkResponse 404 (BMsg "Post does not exist"))
  /\ (forall o,
        castObjectId (req_params req params.post_id) = Some o ->
        Posts (db w) !! o = None ->
        isValid (req_params req params.comment_id) = true ->
        validationResult req = [] ->
        fst (put_comment env req w) = inr (mkResponse 500 (BText "Server Error"))
        /\ db (snd (put_comment env req w)) = db w).
Proof.
  split; [|split].
  - unfold_routes; repeat case_match; simplify_eq; simpl in *; discriminate.
  - unfold_routes; repeat case_match; simplify_eq; simpl in *; discriminate.
  - intros o Hc Hp Hv He.
    destruct (missing_post_server_error env req w o Hc Hp) as (_ & _ & _ & Hput & _).
    by rewrite (Hput Hv He).
Qed.

Lemma post_does_not_exist_never_answered_witness :
  castObjectId (req_params (bob_on_missing (Some "x")) params.post_id) = Some missing_oid
  /\ Posts (db w0) !! missing_oid = None
  /\ isValid (req_params (bob_on_missing (Some "x")) params.comment_id) = true
  /\ validationResult (bob_on_missing (Some "x")) = []
  /\ fst (put_comment env0 (bob_on_missing (Some "x")) w0) =
       inr (mkResponse 500 (BText "Server Error")).
Proof.
  assert (Hv : isValid (toString comment1_id) = true) by apply isValid_toString.
  split; [exact cast_missing|]. split; [exact w0_missing|]. split; [exact Hv|].
  split; [reflexivity|].
  destruct (post_does_not_exist_never_answered env0 (bob_on_missing (Some "x")) w0)
    as (_ & _ & H).
  exact (proj1 (H missing_oid cast_missing w0_missing Hv eq_refl)).
Defined.

(** X18: the two POST routes never answer 500: their [catch] block fails
    before it can send 'Server Error'.  With a text that passes the
    validation and a requester who is
    not in the database, the promise of either handler is rejected and the
    database is left as it was. *)
Theorem post_routes_never_500 (env : Env) (req : Request) (w : World) :
  (forall b, fst (post_root env req w) <> inr (mkResponse 500 b))
  /\ (forall b, fst (post_comment env req w) <> inr (mkResponse 500 b))
  /\ (validationResult req = [] ->
      Users (db w) !! req_user req = None ->
      fst (post_root env req w) = inl ReferenceError
      /\ db (snd (post_root env req w)) = db w
      /\ fst (post_comment env req w) = inl ReferenceError
      /\ db (snd (post_comment env req w)) = db w).
Proof.
  split; [|split].
  - intros b. unfold_routes; repeat case_match; simplify_eq; simpl in *; discriminate.
  - intros b. unfold_routes; repeat case_match; simplify_eq; simpl in *; discriminate.
  - intros Hv Hu. unfold_routes. rewrite Hv. simpl.
    unfold req_user_id. rewrite castObjectId_toString. simpl. rewrite Hu. simpl.
    split; [done|]. split; [done|].
    destruct (castObjectId (req_params req params.post_id)); simpl; [|done].
    by destruct (Posts (db w) !! o).
Qed.

Lemma post_routes_never_500_witness :
  validationResult (mkRequest fresh_id (mkParams (toString post1_id) "") (Some "hi")) = []
  /\ Users (db w0) !!
       req_user (mkRequest fresh_id (mkParams (toString post1_id) "") (Some "hi")) = None
  /\ fst (post_root env0
            (mkRequest fresh_id (mkParams (toString post1_id) "") (Some "hi")) w0) =
       inl ReferenceError
  /\ fst (post_comment env0
            (mkRequest fresh_id (mkParams (toString post1_id) "") (Some "hi")) w0) =
       inl ReferenceError.
Proof.
  assert (Hu : Users (db w0) !! fresh_id = None) by (vm_compute; reflexivity).
  split; [reflexivity|]. split; [exact Hu|].
  destruct (post_routes_never_500 env0
              (mkRequest fresh_id (mkParams (toString post1_id) "") (Some "hi")) w0)
    as (_ & _ & H).
  destruct (H eq_refl Hu) as (H1 & _ & H2 & _).
  split; [exact H1 | exact H2].
Defined.
